(** * ovpnstats: the parser of the openvpn-status.log file

    A shallow embedding of [parse.go] (package [ovpnstats]) together with the
    parts of the Go standard library it calls ([strings.Split],
    [strconv.Atoi], [time.Unix]), and the properties of the parser proved
    over that embedding.

    Conventions.
    - A Go [string] is a sequence of bytes: [String.string], whose
      characters are the 8-bit [ascii].
    - Go's [int] and [int64] are 64 bits wide (the size on amd64 and arm64);
      they are modelled as [Z], the wrap-around of the machine arithmetic
      written out with [wrap_i64], [wrap_u64] and [wrap_u8].
    - A Go function returning [(T, error)] returns a [result T]: [Ok v] for
      a nil error, [Err e] for a non-nil one. A run-time panic, which is not
      a return at all, is the third outcome [Panic]. *)

From Stdlib Require Import ZArith List String Ascii Bool Lia.
Import ListNotations.

Local Open Scope string_scope.
Local Open Scope Z_scope.

(** ** Outcomes of a call *)

Inductive errKind : Type :=
| ErrSyntax   (* strconv.ErrSyntax: "invalid syntax" *)
| ErrRange.   (* strconv.ErrRange:  "value out of range" *)

(** [*strconv.NumError]. *)
Record NumError : Type := mkNumError {
  Func : string;
  Num  : string;
  Err_ : errKind
}.

(** The values of the interface [error] that reach the package. *)
Inductive error : Type :=
| ENum  (e : NumError)          (* from strconv.Atoi *)
| EPath (op path : string).     (* *fs.PathError, from os.Open *)

(** [runtime.Error]: "index out of range [i] with length n". *)
Inductive runtimeError : Type :=
| IndexOutOfRange (i n : nat).

Inductive result (A : Type) : Type :=
| Ok    (a : A)
| Err   (e : error)
| Panic (p : runtimeError).

Arguments Ok {A} a.
Arguments Err {A} e.
Arguments Panic {A} p.

Definition bind {A B : Type} (r : result A) (k : A -> result B) : result B :=
  match r with
  | Ok a => k a
  | Err e => Err e
  | Panic p => Panic p
  end.

Notation "x <- r ;; k" := (bind r (fun x => k))
  (at level 61, r at next level, right associativity).

(** [parts[i]] on a slice of strings: the element, or the run-time panic. *)
Definition index (parts : list string) (i : nat) : result string :=
  match nth_error parts i with
  | Some s => Ok s
  | None => Panic (IndexOutOfRange i (List.length parts))
  end.

(** ** Machine integers *)

Definition wrap_u8  (z : Z) : Z := z mod 2^8.
Definition wrap_u64 (z : Z) : Z := z mod 2^64.
Definition wrap_i32 (z : Z) : Z := (z + 2^31) mod 2^32 - 2^31.
Definition wrap_i64 (z : Z) : Z := (z + 2^63) mod 2^64 - 2^63.

Definition minInt64 : Z := - 2^63.
Definition maxInt64 : Z := 2^63 - 1.

Definition in_int64 (z : Z) : Prop := minInt64 <= z <= maxInt64.

(** The value of a byte of a string. *)
Definition byte (c : ascii) : Z := Z.of_N (N_of_ascii c).

(** ** strings *)

Module Strings.

(** [strings.Split(s, sep)] for a separator of one byte: the substrings
    between the occurrences of [sep], empty ones included; one more field
    than there are separators. *)
Fixpoint Split (s : string) (sep : ascii) : list string :=
  match s with
  | EmptyString => [EmptyString]
  | String c s' =>
      if Ascii.eqb c sep then EmptyString :: Split s' sep
      else match Split s' sep with
           | [] => [String c EmptyString]
           | f :: fs => String c f :: fs
           end
  end.

(** [strings.Count(s, sep)] for a separator of one byte. *)
Fixpoint Count (s : string) (sep : ascii) : nat :=
  match s with
  | EmptyString => 0
  | String c s' => (if Ascii.eqb c sep then 1 else 0) + Count s' sep
  end.

End Strings.

(** ** strconv *)

Module Strconv.

Definition intSize : Z := 64.

Definition fnAtoi : string := "Atoi".

Definition syntaxError (fn str : string) : NumError := mkNumError fn str ErrSyntax.
Definition rangeError  (fn str : string) : NumError := mkNumError fn str ErrRange.

Definition maxUint64 : Z := 2^64 - 1.

(** [lower(c)]: [c | ('x' - 'X')]. *)
Definition lower (c : Z) : Z := Z.lor c 32.

(** The digit loop of [ParseUint(s, 10, 0)]: base 10, so no underscores and
    no base prefix; [bitSize] 0 stands for [IntSize]. The pair is the
    function's [(uint64, error)], the error given by its kind. *)
Fixpoint parseUintLoop (s : string) (n : Z) : Z * option errKind :=
  match s with
  | EmptyString => (n, None)
  | String ch s' =>
      let c := byte ch in
      let base := 10 in
      let cutoff := maxUint64 / 10 + 1 in
      let maxVal := wrap_u64 (Z.shiftl 1 intSize - 1) in
      let digit :=
        if (48 <=? c) && (c <=? 57) then Some (wrap_u8 (c - 48))
        else if (97 <=? lower c) && (lower c <=? 122)
             then Some (wrap_u8 (lower c - 97 + 10))
             else None in
      match digit with
      | None => (0, Some ErrSyntax)
      | Some d =>
          if base <=? d then (0, Some ErrSyntax)
          else if cutoff <=? n then (maxVal, Some ErrRange)
          else
            let n' := wrap_u64 (n * base) in
            let n1 := wrap_u64 (n' + d) in
            if (n1 <? n') || (maxVal <? n1) then (maxVal, Some ErrRange)
            else parseUintLoop s' n1
      end
  end.

Definition ParseUint (s : string) : Z * option errKind :=
  match s with
  | EmptyString => (0, Some ErrSyntax)
  | _ => parseUintLoop s 0
  end.

(** [ParseInt(s, 10, 0)]. *)
Definition ParseInt (s : string) : Z * option errKind :=
  match s with
  | EmptyString => (0, Some ErrSyntax)
  | String c0 rest =>
      let neg := Ascii.eqb c0 "-" in
      let s1 := if Ascii.eqb c0 "+" then rest
                else if Ascii.eqb c0 "-" then rest else s in
      let '(un, err) := ParseUint s1 in
      match err with
      | Some ErrSyntax => (0, Some ErrSyntax)
      | _ =>
          let cutoff := Z.shiftl 1 (intSize - 1) in
          if negb neg && (cutoff <=? un) then (wrap_i64 (cutoff - 1), Some ErrRange)
          else if neg && (cutoff <? un) then (wrap_i64 (- cutoff), Some ErrRange)
          else
            let n := wrap_i64 un in
            (if neg then wrap_i64 (- n) else n, None)
      end
  end.

(** The loop of the fast path of [Atoi]: [ch -= '0'] on a byte, then
    [n = n*10 + int(ch)] on an [int]. [None] is the syntax error. *)
Fixpoint atoiLoop (s : string) (n : Z) : option Z :=
  match s with
  | EmptyString => Some n
  | String c s' =>
      let ch := wrap_u8 (byte c - 48) in
      if 9 <? ch then None
      else atoiLoop s' (wrap_i64 (n * 10 + ch))
  end.

(** [strconv.Atoi]. *)
Definition Atoi (s : string) : result Z :=
  let sLen := Z.of_nat (String.length s) in
  if (0 <? sLen) && (sLen <? 19) then
    (* Fast path for small integers that fit int type. *)
    match s with
    | EmptyString => Err (ENum (syntaxError fnAtoi s))
    | String c0 rest =>
        let signed := Ascii.eqb c0 "-" || Ascii.eqb c0 "+" in
        let s1 := if signed then rest else s in
        if signed && (Z.of_nat (String.length s1) <? 1)
        then Err (ENum (syntaxError fnAtoi s))
        else
          match atoiLoop s1 0 with
          | None => Err (ENum (syntaxError fnAtoi s))
          | Some n => Ok (if Ascii.eqb c0 "-" then wrap_i64 (- n) else n)
          end
    end
  else
    (* Slow path for invalid, big, or underscored integers. *)
    match ParseInt s with
    | (i64, None) => Ok i64
    | (_, Some k) => Err (ENum (mkNumError fnAtoi s k))
    end.

End Strconv.

(** ** time *)

Module Time.

(** [time.Time] without its location, which [time.Unix] always sets to
    [Local]: [wall] is a [uint64], [ext] an [int64]. *)
Record Time : Type := mkTime {
  wall : Z;
  ext  : Z
}.

Definition hasMonotonic : Z := Z.shiftl 1 63.
Definition nsecMask : Z := Z.shiftl 1 30 - 1.
Definition nsecShift : Z := 30.

Definition unixToInternal : Z :=
  (1969 * 365 + 1969 / 4 - 1969 / 100 + 1969 / 400) * 86400.
Definition internalToUnix : Z := - unixToInternal.
Definition wallToInternal : Z :=
  (1884 * 365 + 1884 / 4 - 1884 / 100 + 1884 / 400) * 86400.

Definition unixTime (sec nsec : Z) : Time :=
  mkTime (wrap_u64 nsec) (wrap_i64 (sec + unixToInternal)).

(** [time.Unix(sec, nsec)]; Go's [/] on integers truncates: [Z.quot]. *)
Definition Unix (sec nsec : Z) : Time :=
  if (nsec <? 0) || (1000000000 <=? nsec) then
    let n := Z.quot nsec 1000000000 in
    let sec1 := wrap_i64 (sec + n) in
    let nsec1 := wrap_i64 (nsec - wrap_i64 (n * 1000000000)) in
    if nsec1 <? 0
    then unixTime (wrap_i64 (sec1 - 1)) (wrap_i32 (wrap_i64 (nsec1 + 1000000000)))
    else unixTime sec1 (wrap_i32 nsec1)
  else unixTime sec (wrap_i32 nsec).

(** [t.sec()]: seconds since Jan 1 year 1. *)
Definition sec (t : Time) : Z :=
  if negb (Z.land (wall t) hasMonotonic =? 0)
  then wrap_i64 (wallToInternal +
                 wrap_i64 (Z.shiftr (wrap_u64 (Z.shiftl (wall t) 1)) (nsecShift + 1)))
  else ext t.

(** [t.Unix()]: seconds since the Unix epoch. *)
Definition UnixSec (t : Time) : Z := wrap_i64 (sec t + internalToUnix).

(** [t.Nanosecond()]: the nanosecond offset within the second. *)
Definition Nanosecond (t : Time) : Z := wrap_i32 (Z.land (wall t) nsecMask).

End Time.

(** ** Package ovpnstats *)

Import Strings Strconv.

Definition splitCharacter : ascii := ","%char.

(** ClientInfo represents a CLIENT_LIST entry. *)
Record ClientInfo : Type := mkClientInfo {
  Name              : string;
  RealAddress       : string;
  VirtualAddress    : string;
  VirtualV6Address  : string;
  BytesReceived     : Z;
  BytesSent         : Z;
  ConnectedSince    : Time.Time;
  Username          : string;
  ClientID          : Z;
  PeerID            : Z;
  DataChannelCipher : string
}.

(** RoutingInfo represents a ROUTING_TABLE entry. Its fields are prefixed
    with [R], the names of [ClientInfo] being taken. *)
Record RoutingInfo : Type := mkRoutingInfo {
  RVirtualAddress : string;
  RCommonName     : string;
  RRealAddress    : string;
  RLastRef        : Time.Time
}.

(** [parseClientListEntry]: the five conversions in the order of the source,
    each index evaluated just before its use, then the fields of the
    composite literal from first to last. *)
Definition parseClientListEntry (line : string) : result ClientInfo :=
  let parts := Split line splitCharacter in
  p5 <- index parts 5 ;;
  bytesReceived <- Atoi p5 ;;
  p6 <- index parts 6 ;;
  bytesSent <- Atoi p6 ;;
  p8 <- index parts 8 ;;
  connectedSinceUnix <- Atoi p8 ;;
  p10 <- index parts 10 ;;
  clientID <- Atoi p10 ;;
  p11 <- index parts 11 ;;
  peerID <- Atoi p11 ;;
  p1 <- index parts 1 ;;
  p2 <- index parts 2 ;;
  p3 <- index parts 3 ;;
  p4 <- index parts 4 ;;
  p9 <- index parts 9 ;;
  p12 <- index parts 12 ;;
  Ok {| Name              := p1;
        RealAddress       := p2;
        VirtualAddress    := p3;
        VirtualV6Address  := p4;
        BytesReceived     := bytesReceived;
        BytesSent         := bytesSent;
        ConnectedSince    := Time.Unix (wrap_i64 connectedSinceUnix) 0;
        Username          := p9;
        ClientID          := clientID;
        PeerID            := peerID;
        DataChannelCipher := p12 |}.

Definition parseRoutingTableEntry (line : string) : result RoutingInfo :=
  let parts := Split line splitCharacter in
  p5 <- index parts 5 ;;
  lastRefUnix <- Atoi p5 ;;
  p1 <- index parts 1 ;;
  p2 <- index parts 2 ;;
  p3 <- index parts 3 ;;
  Ok {| RVirtualAddress := p1;
        RCommonName     := p2;
        RRealAddress    := p3;
        RLastRef        := Time.Unix (wrap_i64 lastRefUnix) 0 |}.

(** The loop [for scanner.Scan()] of [ParseStatusFile] over the lines the
    scanner yields, with the two slices it appends to. The [break] of the
    case "END" leaves the [switch], not the loop. *)
Fixpoint scanLines (lines : list string)
    (clients : list ClientInfo) (routes : list RoutingInfo)
    : result (list ClientInfo * list RoutingInfo) :=
  match lines with
  | [] => Ok (clients, routes)
  | line :: rest =>
      let parts := Split line splitCharacter in
      p0 <- index parts 0 ;;
      if String.eqb p0 "HEADER" then scanLines rest clients routes
      else if String.eqb p0 "END" then scanLines rest clients routes
      else
        let statusType := p0 in
        if String.eqb statusType "CLIENT_LIST" then
          info <- parseClientListEntry line ;;
          scanLines rest (clients ++ [info]) routes
        else if String.eqb statusType "ROUTING_TABLE" then
          info <- parseRoutingTableEntry line ;;
          scanLines rest clients (routes ++ [info])
        else scanLines rest clients routes
  end.

(** [ParseStatusFile]. The file system is the environment's: [file] is what
    [os.Open(filename)] gives, the error or the lines that [bufio.Scanner]
    reads from the opened file. Both slices start as nil, the empty list;
    on an error the function returns [nil, nil, err], here [Err err]. *)
Definition ParseStatusFile (file : error + list string)
    : result (list ClientInfo * list RoutingInfo) :=
  match file with
  | inl err => Err err
  | inr lines => scanLines lines [] []
  end.

(** ** The scenario of the log format *)

Definition aliceLine : string :=
  "CLIENT_LIST,alice,1.2.3.4,10.0.0.1,,1000,2000,Mon Jan 1 00:00:00 2024,1704067200,alice,5,6,AES-256-GCM".

Definition aliceRoute : string :=
  "ROUTING_TABLE,10.0.0.1,alice,1.2.3.4,Mon Jan 1 00:00:00 2024,1704067200".

Definition headerLine : string := "HEADER,CLIENT_LIST,Common Name,...".

(** ** The reading of a line by its fields *)

Definition fields (line : string) : list string := Split line splitCharacter.

(** The field at position [i], the empty string when there is none. *)
Definition field (line : string) (i : nat) : string := nth i (fields line) "".

(** The record marker: the leading field. *)
Definition marker (line : string) : string := field line 0.

(** ** The base-10 reading of a field

    What "parses as a base-10 integer" means, independently of [strconv]:
    an optional sign followed by one or more decimal digits. *)

Definition isDigit (c : ascii) : bool := (48 <=? byte c) && (byte c <=? 57).

Fixpoint digitsValue (s : string) (acc : Z) : option Z :=
  match s with
  | EmptyString => Some acc
  | String c s' =>
      if isDigit c then digitsValue s' (acc * 10 + (byte c - 48)) else None
  end.

Definition decimal (s : string) : option Z :=
  match s with
  | EmptyString => None
  | String c rest =>
      if Ascii.eqb c "-" then
        match rest with
        | EmptyString => None
        | _ => option_map Z.opp (digitsValue rest 0)
        end
      else if Ascii.eqb c "+" then
        match rest with
        | EmptyString => None
        | _ => digitsValue rest 0
        end
      else digitsValue s 0
  end.

(** A field that is a base-10 integer of the range of [int]. *)
Definition intField (s : string) (n : Z) : Prop :=
  decimal s = Some n /\ in_int64 n.

(** Whether a string starts with the minus sign. *)
Definition startsMinus (s : string) : bool :=
  match s with
  | String c _ => Ascii.eqb c "-"
  | EmptyString => false
  end.

(** ** Auxiliary definitions of the proofs *)

(** Powers of ten, by the number of digits. *)
Definition pow10 (l : nat) : Z := 10 ^ Z.of_nat l.

(** The range of [int], as a test. *)
Definition inRange (n : Z) : bool := (minInt64 <=? n) && (n <=? maxInt64).

(** What [ParseInt] does with the result of [ParseUint]. *)
Definition signedOf (neg : bool) (r : Z * option errKind) : Z * option errKind :=
  let '(un, err) := r in
  match err with
  | Some ErrSyntax => (0, Some ErrSyntax)
  | _ =>
      if negb neg && (9223372036854775808 <=? un)
      then (9223372036854775807, Some ErrRange)
      else if neg && (9223372036854775808 <? un)
           then (-9223372036854775808, Some ErrRange)
           else (if neg then wrap_i64 (- wrap_i64 un) else wrap_i64 un, None)
  end.

(** The two kinds of lines that give a record. *)
Definition isClientLine (line : string) : bool :=
  String.eqb (marker line) "CLIENT_LIST".

Definition isRouteLine (line : string) : bool :=
  String.eqb (marker line) "ROUTING_TABLE".

(** A line that the loop steps over. *)
Definition skipped (line : string) : Prop :=
  forall rest clients routes,
    scanLines (line :: rest) clients routes = scanLines rest clients routes.

(** ** Lines and records used as examples *)

Definition aliceRecord : ClientInfo :=
  {| Name              := "alice";
     RealAddress       := "1.2.3.4";
     VirtualAddress    := "10.0.0.1";
     VirtualV6Address  := "";
     BytesReceived     := 1000;
     BytesSent         := 2000;
     ConnectedSince    := Time.Unix 1704067200 0;
     Username          := "alice";
     ClientID          := 5;
     PeerID            := 6;
     DataChannelCipher := "AES-256-GCM" |}.

Definition aliceRouteRecord : RoutingInfo :=
  {| RVirtualAddress := "10.0.0.1";
     RCommonName     := "alice";
     RRealAddress    := "1.2.3.4";
     RLastRef        := Time.Unix 1704067200 0 |}.

(** A CLIENT_LIST line cut after the name, and a ROUTING_TABLE line cut
    after the virtual address. *)
Definition shortClientLine : string := "CLIENT_LIST,alice".
Definition shortRouteLine : string := "ROUTING_TABLE,10.0.0.1".

(** A CLIENT_LIST line of 12 fields, the cipher missing, all integers fine. *)
Definition noCipherLine : string :=
  "CLIENT_LIST,alice,1.2.3.4,10.0.0.1,,1000,2000,Mon Jan 1 00:00:00 2024,1704067200,alice,5,6".

(** The line of alice with letters for the bytes received. *)
Definition malformedLine : string :=
  "CLIENT_LIST,alice,1.2.3.4,10.0.0.1,,many,2000,Mon Jan 1 00:00:00 2024,1704067200,alice,5,6,AES-256-GCM".

(** The line of alice with minus signs before the four counters. *)
Definition negativeLine : string :=
  "CLIENT_LIST,alice,1.2.3.4,10.0.0.1,,-1000,-2000,Mon Jan 1 00:00:00 2024,1704067200,alice,-5,-6,AES-256-GCM".

(** The line of alice with another display string and two more fields. *)
Definition aliceLineLonger : string :=
  "CLIENT_LIST,alice,1.2.3.4,10.0.0.1,,1000,2000,2024-01-01 00:00:00,1704067200,alice,5,6,AES-256-GCM,extra,fields".

Definition bobLine : string :=
  "CLIENT_LIST,bob,5.6.7.8,10.0.0.2,,30,40,Mon Jan 1 00:00:01 2024,1704067201,bob,7,8,AES-256-GCM".

Definition bobRecord : ClientInfo :=
  {| Name              := "bob";
     RealAddress       := "5.6.7.8";
     VirtualAddress    := "10.0.0.2";
     VirtualV6Address  := "";
     BytesReceived     := 30;
     BytesSent         := 40;
     ConnectedSince    := Time.Unix 1704067201 0;
     Username          := "bob";
     ClientID          := 7;
     PeerID            := 8;
     DataChannelCipher := "AES-256-GCM" |}.

(** The record of [negativeLine]. *)
Definition negativeRecord : ClientInfo :=
  {| Name              := "alice";
     RealAddress       := "1.2.3.4";
     VirtualAddress    := "10.0.0.1";
     VirtualV6Address  := "";
     BytesReceived     := -1000;
     BytesSent         := -2000;
     ConnectedSince    := Time.Unix 1704067200 0;
     Username          := "alice";
     ClientID          := -5;
     PeerID            := -6;
     DataChannelCipher := "AES-256-GCM" |}.


(** ** bufio: the lines a [Scanner] yields

    [ParseStatusFile] reads the opened file through
    [bufio.NewScanner(file)], whose split function is [ScanLines] and whose
    buffer grows to [MaxScanTokenSize] bytes and no further. *)

Module Bufio.

Definition MaxScanTokenSize : Z := 64 * 1024.

(** [dropCR]: drops a terminal "\r" from the data. *)
Fixpoint dropCR (data : string) : string :=
  match data with
  | EmptyString => EmptyString
  | String c EmptyString => if Ascii.eqb c "013" then EmptyString else data
  | String c rest => String c (dropCR rest)
  end.

(** The data cut at every "\n", as [ScanLines] cuts it: the newline is not
    part of the line, what follows the last newline is a line when it is
    not empty, and no data gives no line. *)
Fixpoint rawLines (data : string) : list string :=
  match data with
  | EmptyString => []
  | String c rest =>
      if Ascii.eqb c "010" then EmptyString :: rawLines rest
      else match rawLines rest with
           | [] => [String c EmptyString]
           | l :: ls => String c l :: ls
           end
  end.

(** The tokens of [Scan]: each line without its terminal "\r", up to the
    first line that does not fit the buffer with its newline; there [Scan]
    sets [ErrTooLong] and returns false, for good. *)
Fixpoint deliver (maxTokenSize : Z) (raw : list string) : list string :=
  match raw with
  | [] => []
  | l :: ls =>
      if Z.of_nat (String.length l) <? maxTokenSize
      then dropCR l :: deliver maxTokenSize ls
      else []
  end.

(** The successive [scanner.Text()] of the loop [for scanner.Scan()] over a
    file of these bytes. *)
Definition Lines (data : string) : list string :=
  deliver MaxScanTokenSize (rawLines data).

End Bufio.

(** [ParseStatusFile] on a file that opens and holds these bytes. The loop
    ends when [Scan] returns false; [scanner.Err()] is not looked at. *)
Definition parseBytes (data : string) : result (list ClientInfo * list RoutingInfo) :=
  ParseStatusFile (inr (Bufio.Lines data)).

(** The lines of a file written with "\n" after each line, and with
    "\r\n" after each line. *)
Fixpoint unlines (eol : string) (lines : list string) : string :=
  match lines with
  | [] => EmptyString
  | l :: ls => l ++ eol ++ unlines eol ls
  end.

Definition LF : string := String "010" EmptyString.
Definition CRLF : string := String "013" (String "010" EmptyString).

(** A line that a file can hold: no newline in it, no "\r" at its end. *)
Definition plainLine (l : string) : Prop :=
  Count l "010" = 0%nat /\ Bufio.dropCR l = l.

(** The index at which a CLIENT_LIST line of [len] fields, fewer than 13,
    is first read out of range, in the order the decoder reads the fields. *)
Definition firstMissing (len : nat) : nat :=
  if (len <=? 5)%nat then 5
  else if (len <=? 6)%nat then 6
  else if (len <=? 8)%nat then 8
  else if (len <=? 10)%nat then 10
  else if (len <=? 11)%nat then 11
  else 12.

(** A string of [n] bytes [c]. *)
Fixpoint replicate (n : nat) (c : ascii) : string :=
  match n with
  | O => EmptyString
  | S n' => String c (replicate n' c)
  end.

(** The failure of a call as the failure of its caller: an error or a
    panic is passed on as it is, a value is no failure. *)
Definition failureOf {A B : Type} (r : result A) : option (result B) :=
  match r with
  | Ok _ => None
  | Err e => Some (Err e)
  | Panic p => Some (Panic p)
  end.

(** The decoder of a line, by its marker, as the failure the scan meets. *)
Definition lineFailure (line : string)
    : option (result (list ClientInfo * list RoutingInfo)) :=
  if isClientLine line then failureOf (parseClientListEntry line)
  else if isRouteLine line then failureOf (parseRoutingTableEntry line)
  else None.

(** * Properties *)

(** ** Machine integers *)

Ltac pow_consts :=
  change (2^8) with 256 in *;
  change (2^31) with 2147483648 in *;
  change (2^32) with 4294967296 in *;
  change (2^63) with 9223372036854775808 in *;
  change (2^64) with 18446744073709551616 in *.

Ltac unwrap :=
  unfold in_int64, minInt64, maxInt64, wrap_i64, wrap_u64, wrap_i32, wrap_u8 in *;
  pow_consts.

Lemma byte_range (c : ascii) : 0 <= byte c < 256.
Proof.
  unfold byte. pose proof (N_ascii_bounded c). lia.
Qed.

Lemma wrap_i64_range (z : Z) : in_int64 (wrap_i64 z).
Proof.
  unwrap.
  pose proof (Z.mod_pos_bound (z + 9223372036854775808) 18446744073709551616).
  lia.
Qed.

Lemma wrap_i64_id (z : Z) : in_int64 z -> wrap_i64 z = z.
Proof.
  intros H. unwrap. rewrite Z.mod_small; lia.
Qed.

Lemma wrap_i64_add_l (a b : Z) : wrap_i64 (wrap_i64 a + b) = wrap_i64 (a + b).
Proof.
  unwrap. f_equal.
  replace ((a + 9223372036854775808) mod 18446744073709551616
           - 9223372036854775808 + b + 9223372036854775808)
    with ((a + 9223372036854775808) mod 18446744073709551616 + b) by lia.
  rewrite Zplus_mod_idemp_l. f_equal. lia.
Qed.

Lemma wrap_u64_id (z : Z) : 0 <= z <= 18446744073709551615 -> wrap_u64 z = z.
Proof.
  intros H. unwrap. rewrite Z.mod_small; lia.
Qed.

Lemma wrap_u8_id (z : Z) : 0 <= z < 256 -> wrap_u8 z = z.
Proof.
  intros H. unwrap. rewrite Z.mod_small; lia.
Qed.

(** ** time: the seconds given to [time.Unix] are read back by [t.Unix()] *)

Lemma Time_Unix_roundtrip (n : Z) :
  in_int64 n ->
  Time.UnixSec (Time.Unix n 0) = n /\ Time.Nanosecond (Time.Unix n 0) = 0.
Proof.
  intros Hn.
  unfold Time.Unix. simpl.
  unfold Time.UnixSec, Time.Nanosecond, Time.sec, Time.unixTime. simpl.
  split; [|reflexivity].
  unfold Time.internalToUnix.
  rewrite wrap_i64_add_l.
  replace (n + Time.unixToInternal + - Time.unixToInternal) with n by lia.
  now apply wrap_i64_id.
Qed.

(** ** strconv: [Atoi] reads exactly the base-10 integers of the range of [int] *)

Lemma isDigit_spec (c : ascii) : isDigit c = true <-> 48 <= byte c <= 57.
Proof.
  unfold isDigit. rewrite andb_true_iff, !Z.leb_le. tauto.
Qed.

Lemma isDigit_false (c : ascii) : isDigit c = false <-> byte c < 48 \/ 57 < byte c.
Proof.
  unfold isDigit. rewrite andb_false_iff, !Z.leb_gt. tauto.
Qed.

(** The test [ch -= '0'; ch > 9] on a byte is the test for a digit. *)
Lemma fast_digit (c : ascii) :
  if isDigit c
  then (9 <? wrap_u8 (byte c - 48)) = false /\ wrap_u8 (byte c - 48) = byte c - 48
  else (9 <? wrap_u8 (byte c - 48)) = true.
Proof.
  pose proof (byte_range c) as Hb.
  destruct (isDigit c) eqn:Hd.
  - apply isDigit_spec in Hd.
    rewrite wrap_u8_id by lia. split; [apply Z.ltb_ge; lia | reflexivity].
  - apply isDigit_false in Hd. apply Z.ltb_lt. unwrap.
    destruct Hd as [Hd|Hd].
    + replace (byte c - 48) with ((byte c + 208) + (-1) * 256) by lia.
      rewrite Z.mod_add by lia. rewrite Z.mod_small; lia.
    + rewrite Z.mod_small; lia.
Qed.

Lemma digitsValue_ge (s : string) : forall n m,
  0 <= n -> digitsValue s n = Some m -> n <= m.
Proof.
  induction s as [|c s IH]; simpl; intros n m Hn H.
  - inversion H; lia.
  - destruct (isDigit c) eqn:Hd; [|discriminate].
    apply isDigit_spec in Hd. apply IH in H; lia.
Qed.

Lemma pow10_S (l : nat) : pow10 (S l) = 10 * pow10 l.
Proof.
  unfold pow10. rewrite Nat2Z.inj_succ, Z.pow_succ_r; lia.
Qed.

Lemma pow10_pos (l : nat) : 0 < pow10 l.
Proof.
  unfold pow10. apply Z.pow_pos_nonneg; lia.
Qed.

Lemma pow10_le (l : nat) : (l <= 18)%nat -> pow10 l <= 1000000000000000000.
Proof.
  intros H. unfold pow10. change 1000000000000000000 with (10 ^ 18).
  apply Z.pow_le_mono_r; lia.
Qed.

(** The fast path never overflows: on at most 18 digits its loop computes
    the value of the digits. *)
Lemma atoiLoop_digits (s : string) : forall n,
  0 <= n ->
  (n + 1) * pow10 (String.length s) <= 1000000000000000000 ->
  atoiLoop s n = digitsValue s n /\
  (forall m, digitsValue s n = Some m -> n <= m < 1000000000000000000).
Proof.
  induction s as [|c s IH]; simpl String.length; intros n Hn Hb.
  - simpl. split; [reflexivity|]. intros m H; inversion H; subst.
    unfold pow10 in Hb; simpl in Hb. lia.
  - rewrite pow10_S in Hb. pose proof (pow10_pos (String.length s)) as Hp.
    simpl. pose proof (fast_digit c) as Hf.
    destruct (isDigit c) eqn:Hd.
    + destruct Hf as [Hf1 Hf2]. rewrite Hf1, Hf2.
      apply isDigit_spec in Hd.
      assert (Hs : (n * 10 + (byte c - 48) + 1) * pow10 (String.length s)
                   <= 1000000000000000000) by nia.
      assert (Hlt : n * 10 + (byte c - 48) < 1000000000000000000) by nia.
      rewrite wrap_i64_id by (unwrap; lia).
      destruct (IH (n * 10 + (byte c - 48)) ltac:(lia) Hs) as [E B].
      split; [exact E|]. intros m Hm. apply B in Hm. lia.
    + rewrite Hf. split; [reflexivity | discriminate].
Qed.

Lemma parseUintLoop_cons (c : ascii) (s : string) (n : Z) :
  parseUintLoop (String c s) n =
  match (if (48 <=? byte c) && (byte c <=? 57) then Some (wrap_u8 (byte c - 48))
         else if (97 <=? lower (byte c)) && (lower (byte c) <=? 122)
              then Some (wrap_u8 (lower (byte c) - 97 + 10))
              else None) with
  | None => (0, Some ErrSyntax)
  | Some d =>
      if 10 <=? d then (0, Some ErrSyntax)
      else if 1844674407370955162 <=? n
           then (18446744073709551615, Some ErrRange)
           else if (wrap_u64 (wrap_u64 (n * 10) + d) <? wrap_u64 (n * 10))
                   || (18446744073709551615 <? wrap_u64 (wrap_u64 (n * 10) + d))
                then (18446744073709551615, Some ErrRange)
                else parseUintLoop s (wrap_u64 (wrap_u64 (n * 10) + d))
  end.
Proof. reflexivity. Qed.

Lemma parseUintLoop_nondigit (c : ascii) (s : string) (n : Z) :
  isDigit c = false -> parseUintLoop (String c s) n = (0, Some ErrSyntax).
Proof.
  intros Hd. rewrite parseUintLoop_cons.
  unfold isDigit in Hd. rewrite Hd.
  destruct ((97 <=? lower (byte c)) && (lower (byte c) <=? 122)) eqn:Hl;
    [|reflexivity].
  apply andb_true_iff in Hl. rewrite !Z.leb_le in Hl.
  rewrite wrap_u8_id by lia.
  destruct (10 <=? lower (byte c) - 97 + 10) eqn:E; [reflexivity|].
  apply Z.leb_gt in E. lia.
Qed.

(** The loop of [ParseUint] against the value of the digits: the value when
    it fits a [uint64], the range error when it does not, and an error when
    a byte is not a digit. *)
Lemma parseUintLoop_spec (s : string) : forall n,
  0 <= n <= 18446744073709551615 ->
  match digitsValue s n with
  | Some m =>
      parseUintLoop s n =
      if m <=? 18446744073709551615 then (m, None)
      else (18446744073709551615, Some ErrRange)
  | None =>
      parseUintLoop s n = (0, Some ErrSyntax) \/
      parseUintLoop s n = (18446744073709551615, Some ErrRange)
  end.
Proof.
  induction s as [|c s IH]; intros n Hn.
  - simpl. destruct (n <=? 18446744073709551615) eqn:E; [reflexivity|].
    apply Z.leb_gt in E. lia.
  - simpl digitsValue. destruct (isDigit c) eqn:Hd.
    2:{ left. now apply parseUintLoop_nondigit. }
    rewrite parseUintLoop_cons.
    pose proof Hd as Hd'. unfold isDigit in Hd'. rewrite Hd'.
    apply isDigit_spec in Hd.
    rewrite wrap_u8_id by lia.
    set (d := byte c - 48) in *.
    assert (Hdr : 0 <= d <= 9) by (unfold d; lia).
    destruct (10 <=? d) eqn:E10; [apply Z.leb_le in E10; lia|].
    assert (Hover : forall m, n * 10 + d > 18446744073709551615 ->
              digitsValue s (n * 10 + d) = Some m ->
              (m <=? 18446744073709551615) = false).
    { intros m Hgt Hm. apply digitsValue_ge in Hm; [|lia].
      apply Z.leb_gt. lia. }
    destruct (1844674407370955162 <=? n) eqn:Ec.
    + apply Z.leb_le in Ec.
      destruct (digitsValue s (n * 10 + d)) as [m|] eqn:Hm.
      * rewrite (Hover m) by (auto; lia). reflexivity.
      * right; reflexivity.
    + apply Z.leb_gt in Ec.
      rewrite (wrap_u64_id (n * 10)) by lia.
      destruct (Z_le_gt_dec (n * 10 + d) 18446744073709551615) as [Hfit|Hbig].
      * rewrite wrap_u64_id by lia.
        replace ((n * 10 + d <? n * 10) || (18446744073709551615 <? n * 10 + d))
          with false
          by (symmetry; apply orb_false_iff; split; apply Z.ltb_ge; lia).
        apply IH. lia.
      * assert (Hw : wrap_u64 (n * 10 + d) = n * 10 + d - 18446744073709551616).
        { unwrap.
          replace (n * 10 + d)
            with ((n * 10 + d - 18446744073709551616) + 1 * 18446744073709551616)
            by lia.
          rewrite Z.mod_add by lia. rewrite Z.mod_small; lia. }
        rewrite Hw.
        replace (n * 10 + d - 18446744073709551616 <? n * 10) with true
          by (symmetry; apply Z.ltb_lt; lia).
        simpl orb.
        destruct (digitsValue s (n * 10 + d)) as [m|] eqn:Hm.
        -- rewrite (Hover m) by (auto; lia). reflexivity.
        -- right; reflexivity.
Qed.

Lemma ParseUint_spec (s : string) :
  s <> EmptyString ->
  match digitsValue s 0 with
  | Some m =>
      0 <= m /\
      ParseUint s =
      if m <=? 18446744073709551615 then (m, None)
      else (18446744073709551615, Some ErrRange)
  | None =>
      ParseUint s = (0, Some ErrSyntax) \/
      ParseUint s = (18446744073709551615, Some ErrRange)
  end.
Proof.
  intros Hs.
  assert (E : ParseUint s = parseUintLoop s 0) by (destruct s; [congruence | reflexivity]).
  rewrite E.
  pose proof (parseUintLoop_spec s 0 ltac:(lia)) as H.
  destruct (digitsValue s 0) as [m|] eqn:Hm; [|exact H].
  split; [|exact H]. apply digitsValue_ge in Hm; lia.
Qed.

Lemma inRange_spec (n : Z) : inRange n = true <-> in_int64 n.
Proof.
  unfold inRange, in_int64. rewrite andb_true_iff, !Z.leb_le. tauto.
Qed.

Lemma ParseInt_cons (c0 : ascii) (rest : string) :
  ParseInt (String c0 rest) =
  signedOf (Ascii.eqb c0 "-")
    (ParseUint (if Ascii.eqb c0 "+" then rest
                else if Ascii.eqb c0 "-" then rest else String c0 rest)).
Proof.
  unfold ParseInt, signedOf.
  destruct (ParseUint _) as [un [[|]|]]; reflexivity.
Qed.

Lemma signedOf_error (neg : bool) (r : Z * option errKind) :
  r = (0, Some ErrSyntax) \/ r = (18446744073709551615, Some ErrRange) ->
  exists v k, signedOf neg r = (v, Some k).
Proof.
  intros [-> | ->]; destruct neg; simpl; eauto.
Qed.

Lemma signedOf_value (neg : bool) (m : Z) :
  0 <= m ->
  let n := if neg then - m else m in
  let r := if m <=? 18446744073709551615 then (m, None)
           else (18446744073709551615, Some ErrRange) in
  if inRange n then signedOf neg r = (n, None)
  else exists v, signedOf neg r = (v, Some ErrRange).
Proof.
  intros Hm n r. subst n r.
  destruct (m <=? 18446744073709551615) eqn:Eu.
  - apply Z.leb_le in Eu. unfold signedOf.
    destruct neg; simpl negb; simpl andb.
    + destruct (9223372036854775808 <? m) eqn:E.
      * apply Z.ltb_lt in E.
        replace (inRange (- m)) with false; [eauto|].
        symmetry. unfold inRange, minInt64. pow_consts.
        apply andb_false_iff. left. apply Z.leb_gt. lia.
      * apply Z.ltb_ge in E.
        replace (inRange (- m)) with true
          by (symmetry; apply inRange_spec; unwrap; lia).
        f_equal.
        destruct (Z.eq_dec m 9223372036854775808) as [->|Hne]; [reflexivity|].
        rewrite (wrap_i64_id m) by (unwrap; lia).
        apply wrap_i64_id. unwrap; lia.
    + destruct (9223372036854775808 <=? m) eqn:E.
      * apply Z.leb_le in E.
        replace (inRange m) with false; [eauto|].
        symmetry. unfold inRange, maxInt64. pow_consts.
        apply andb_false_iff. right. apply Z.leb_gt. lia.
      * apply Z.leb_gt in E.
        replace (inRange m) with true
          by (symmetry; apply inRange_spec; unwrap; lia).
        f_equal. apply wrap_i64_id. unwrap; lia.
  - apply Z.leb_gt in Eu.
    replace (inRange (if neg then - m else m)) with false.
    + destruct neg; simpl; eauto.
    + symmetry. unfold inRange, minInt64, maxInt64. pow_consts.
      apply andb_false_iff.
      destruct neg; [left | right]; apply Z.leb_gt; lia.
Qed.

(** [ParseInt] against the base-10 reading. *)
Lemma ParseInt_spec (s : string) :
  match decimal s with
  | Some n =>
      if inRange n then ParseInt s = (n, None)
      else exists v, ParseInt s = (v, Some ErrRange)
  | None => exists v k, ParseInt s = (v, Some k)
  end.
Proof.
  destruct s as [|c0 rest]; [simpl; eauto|].
  rewrite ParseInt_cons. unfold decimal.
  destruct (Ascii.eqb c0 "-") eqn:Em.
  - assert (Ep : Ascii.eqb c0 "+" = false).
    { apply Ascii.eqb_eq in Em. subst. reflexivity. }
    rewrite Ep.
    destruct rest as [|c1 r1]; [simpl; eauto|].
    pose proof (ParseUint_spec (String c1 r1) ltac:(discriminate)) as H.
    destruct (digitsValue (String c1 r1) 0) as [m|]; simpl option_map.
    + destruct H as [Hm ->]. apply (signedOf_value true m Hm).
    + now apply signedOf_error.
  - destruct (Ascii.eqb c0 "+") eqn:Ep.
    + destruct rest as [|c1 r1]; [simpl; eauto|].
      pose proof (ParseUint_spec (String c1 r1) ltac:(discriminate)) as H.
      destruct (digitsValue (String c1 r1) 0) as [m|].
      * destruct H as [Hm ->]. apply (signedOf_value false m Hm).
      * now apply signedOf_error.
    + pose proof (ParseUint_spec (String c0 rest) ltac:(discriminate)) as H.
      destruct (digitsValue (String c0 rest) 0) as [m|].
      * destruct H as [Hm ->]. apply (signedOf_value false m Hm).
      * now apply signedOf_error.
Qed.

Lemma atoiLoop_short (s : string) :
  (String.length s <= 18)%nat ->
  atoiLoop s 0 = digitsValue s 0 /\
  (forall m, digitsValue s 0 = Some m -> 0 <= m < 1000000000000000000).
Proof.
  intros Hl. apply atoiLoop_digits; [lia|].
  pose proof (pow10_le _ Hl). lia.
Qed.

(** [Atoi] against the base-10 reading: the value when it is in the range of
    [int], the range error when it is not, an error when the string is not
    an optionally signed run of digits. *)
Lemma Atoi_spec (s : string) :
  match decimal s with
  | Some n =>
      if inRange n then Atoi s = Ok n
      else Atoi s = Err (ENum (rangeError fnAtoi s))
  | None => exists k, Atoi s = Err (ENum (mkNumError fnAtoi s k))
  end.
Proof.
  unfold Atoi.
  destruct ((0 <? Z.of_nat (String.length s)) && (Z.of_nat (String.length s) <? 19))
    eqn:Hfast.
  - (* fast path *)
    apply andb_true_iff in Hfast. destruct Hfast as [H0 H19].
    apply Z.ltb_lt in H0, H19.
    destruct s as [|c0 rest]; [simpl in H0; lia|].
    simpl String.length in H19.
    assert (Hrest : (String.length rest <= 17)%nat) by lia.
    assert (Hsmall : forall m, 0 <= m < 1000000000000000000 ->
              inRange m = true /\ inRange (- m) = true /\ wrap_i64 (- m) = - m).
    { intros m Hm. repeat split.
      - apply inRange_spec; unwrap; lia.
      - apply inRange_spec; unwrap; lia.
      - apply wrap_i64_id; unwrap; lia. }
    unfold decimal.
    destruct (Ascii.eqb c0 "-") eqn:Em; simpl orb.
    + destruct rest as [|c1 r1]; [simpl; eexists; reflexivity|].
      replace (Z.of_nat (String.length (String c1 r1)) <? 1) with false
        by (symmetry; apply Z.ltb_ge; simpl String.length; lia).
      simpl andb. cbv iota.
      destruct (atoiLoop_short (String c1 r1) ltac:(lia)) as [-> B].
      destruct (digitsValue (String c1 r1) 0) as [m|]; simpl option_map; [|eexists; reflexivity].
      destruct (Hsmall m (B m eq_refl)) as (_ & -> & ->). reflexivity.
    + destruct (Ascii.eqb c0 "+") eqn:Ep.
      * destruct rest as [|c1 r1]; [simpl; eexists; reflexivity|].
        replace (Z.of_nat (String.length (String c1 r1)) <? 1) with false
          by (symmetry; apply Z.ltb_ge; simpl String.length; lia).
        simpl andb. cbv iota.
        destruct (atoiLoop_short (String c1 r1) ltac:(lia)) as [-> B].
        destruct (digitsValue (String c1 r1) 0) as [m|]; [|eexists; reflexivity].
        destruct (Hsmall m (B m eq_refl)) as (-> & _ & _). reflexivity.
      * simpl andb. cbv iota.
        destruct (atoiLoop_short (String c0 rest) ltac:(simpl; lia)) as [-> B].
        destruct (digitsValue (String c0 rest) 0) as [m|]; [|eexists; reflexivity].
        destruct (Hsmall m (B m eq_refl)) as (-> & _ & _). reflexivity.
  - (* slow path *)
    pose proof (ParseInt_spec s) as H.
    destruct (decimal s) as [n|].
    + destruct (inRange n).
      * rewrite H. reflexivity.
      * destruct H as [v ->]. reflexivity.
    + destruct H as (v & k & ->). eexists; reflexivity.
Qed.

(** [Atoi s] returns [n] exactly when [s] is a base-10 integer of value [n]
    in the range of [int]. *)
Lemma Atoi_Ok_iff (s : string) (n : Z) : Atoi s = Ok n <-> intField s n.
Proof.
  pose proof (Atoi_spec s) as H. unfold intField.
  destruct (decimal s) as [m|].
  - destruct (inRange m) eqn:Hr.
    + rewrite H. apply inRange_spec in Hr. split.
      * intros E; inversion E; subst; auto.
      * intros [E _]; inversion E; reflexivity.
    + rewrite H. split; [discriminate|].
      intros [E Hn]. inversion E; subst.
      apply inRange_spec in Hn. congruence.
  - destruct H as [k ->]. split; [discriminate | intros [E _]; discriminate].
Qed.

(** [Atoi] always returns: a value or a [*NumError] naming the string. *)
Lemma Atoi_returns (s : string) :
  (exists n, Atoi s = Ok n) \/
  (exists k, Atoi s = Err (ENum (mkNumError fnAtoi s k))).
Proof.
  pose proof (Atoi_spec s) as H.
  destruct (decimal s) as [m|].
  - destruct (inRange m); [left; eauto | right; eexists; exact H].
  - right; exact H.
Qed.

Lemma Atoi_in_int64 (s : string) (n : Z) : Atoi s = Ok n -> in_int64 n.
Proof.
  intros H. apply Atoi_Ok_iff in H. apply H.
Qed.

Lemma digitsValue_nonneg (s : string) (m : Z) : digitsValue s 0 = Some m -> 0 <= m.
Proof.
  intros H. apply digitsValue_ge in H; lia.
Qed.

(** Without a leading minus sign the value is not negative. *)
Lemma Atoi_nonneg (s : string) (n : Z) :
  Atoi s = Ok n -> startsMinus s = false -> 0 <= n.
Proof.
  intros H Hs. apply Atoi_Ok_iff in H. destruct H as [H _].
  destruct s as [|c0 rest]; [discriminate|].
  unfold decimal in H. simpl in Hs. rewrite Hs in H.
  destruct (Ascii.eqb c0 "+").
  - destruct rest; [discriminate|]. now apply digitsValue_nonneg in H.
  - now apply digitsValue_nonneg in H.
Qed.

(** ** strings: [Split] *)

Lemma Split_cons (s : string) (sep : ascii) :
  exists f fs, Split s sep = f :: fs.
Proof.
  induction s as [|c s [f [fs IH]]]; simpl.
  - eauto.
  - destruct (Ascii.eqb c sep); [eauto|]. rewrite IH. eauto.
Qed.

(** N separators give N+1 fields. *)
Lemma Split_length (s : string) (sep : ascii) :
  List.length (Split s sep) = S (Count s sep).
Proof.
  induction s as [|c s IH]; simpl; [reflexivity|].
  destruct (Ascii.eqb c sep); simpl; [now rewrite IH|].
  destruct (Split_cons s sep) as (f & fs & E).
  rewrite E in *. simpl in *. exact IH.
Qed.

(** The fields of two lines joined by the separator. *)
Lemma Split_app_sep (a b : string) (sep : ascii) :
  Split (a ++ String sep b) sep = (Split a sep ++ Split b sep)%list.
Proof.
  induction a as [|c a IH]; simpl.
  - now rewrite Ascii.eqb_refl.
  - destruct (Ascii.eqb c sep); [now rewrite IH|].
    rewrite IH. destruct (Split_cons a sep) as (f & fs & ->). reflexivity.
Qed.

Lemma fields_nonempty (line : string) : (1 <= List.length (fields line))%nat.
Proof.
  unfold fields. rewrite Split_length. lia.
Qed.

(** ** Indexing and sequencing *)

Lemma index_ok (parts : list string) (i : nat) :
  (i < List.length parts)%nat -> index parts i = Ok (nth i parts "").
Proof.
  intros H. unfold index.
  destruct (nth_error parts i) as [s|] eqn:E.
  - now rewrite (nth_error_nth _ _ "" E).
  - apply nth_error_None in E. lia.
Qed.

Lemma index_panic (parts : list string) (i : nat) :
  (List.length parts <= i)%nat ->
  index parts i = Panic (IndexOutOfRange i (List.length parts)).
Proof.
  intros H. unfold index.
  apply nth_error_None in H. now rewrite H.
Qed.

Lemma index_Ok_inv (parts : list string) (i : nat) (p : string) :
  index parts i = Ok p -> (i < List.length parts)%nat /\ nth i parts "" = p.
Proof.
  unfold index. destruct (nth_error parts i) as [s|] eqn:E; [|discriminate].
  intros H; inversion H; subst. split.
  - apply nth_error_Some. congruence.
  - exact (nth_error_nth _ _ "" E).
Qed.

Lemma bind_Ok_inv {A B : Type} (r : result A) (k : A -> result B) (b : B) :
  bind r k = Ok b -> exists a, r = Ok a /\ k a = Ok b.
Proof.
  destruct r; simpl; intros H; [eauto | discriminate | discriminate].
Qed.

Lemma Atoi_not_panic (s : string) (p : runtimeError) : Atoi s <> Panic p.
Proof.
  destruct (Atoi_returns s) as [[n ->] | [k ->]]; discriminate.
Qed.

(** ** The decoders on the fields of a line *)

(** On a line of 13 fields or more no index is out of range: the decoder is
    the five conversions, then the record. *)
Lemma parseClientListEntry_long (line : string) :
  (13 <= List.length (fields line))%nat ->
  parseClientListEntry line =
  (bytesReceived <- Atoi (field line 5) ;;
   bytesSent <- Atoi (field line 6) ;;
   connectedSinceUnix <- Atoi (field line 8) ;;
   clientID <- Atoi (field line 10) ;;
   peerID <- Atoi (field line 11) ;;
   Ok {| Name              := field line 1;
         RealAddress       := field line 2;
         VirtualAddress    := field line 3;
         VirtualV6Address  := field line 4;
         BytesReceived     := bytesReceived;
         BytesSent         := bytesSent;
         ConnectedSince    := Time.Unix (wrap_i64 connectedSinceUnix) 0;
         Username          := field line 9;
         ClientID          := clientID;
         PeerID            := peerID;
         DataChannelCipher := field line 12 |}).
Proof.
  intros H. unfold parseClientListEntry, field. fold (fields line).
  rewrite !index_ok by lia. reflexivity.
Qed.

Lemma parseRoutingTableEntry_long (line : string) :
  (6 <= List.length (fields line))%nat ->
  parseRoutingTableEntry line =
  (lastRefUnix <- Atoi (field line 5) ;;
   Ok {| RVirtualAddress := field line 1;
         RCommonName     := field line 2;
         RRealAddress    := field line 3;
         RLastRef        := Time.Unix (wrap_i64 lastRefUnix) 0 |}).
Proof.
  intros H. unfold parseRoutingTableEntry, field. fold (fields line).
  rewrite !index_ok by lia. reflexivity.
Qed.

(** A line too short for the first index makes either decoder panic. *)
Lemma parseClientListEntry_short (line : string) :
  (List.length (fields line) <= 5)%nat ->
  parseClientListEntry line =
  Panic (IndexOutOfRange 5 (List.length (fields line))).
Proof.
  intros H. unfold parseClientListEntry. fold (fields line).
  now rewrite index_panic.
Qed.

Lemma parseRoutingTableEntry_short (line : string) :
  (List.length (fields line) <= 5)%nat ->
  parseRoutingTableEntry line =
  Panic (IndexOutOfRange 5 (List.length (fields line))).
Proof.
  intros H. unfold parseRoutingTableEntry. fold (fields line).
  now rewrite index_panic.
Qed.

(** What a successful decode tells about the line. *)
Lemma parseClientListEntry_Ok_inv (line : string) (info : ClientInfo) :
  parseClientListEntry line = Ok info ->
  (13 <= List.length (fields line))%nat /\
  Atoi (field line 5) = Ok (BytesReceived info) /\
  Atoi (field line 6) = Ok (BytesSent info) /\
  (exists n8, Atoi (field line 8) = Ok n8 /\
              ConnectedSince info = Time.Unix n8 0) /\
  Atoi (field line 10) = Ok (ClientID info) /\
  Atoi (field line 11) = Ok (PeerID info) /\
  Name info = field line 1 /\
  RealAddress info = field line 2 /\
  VirtualAddress info = field line 3 /\
  VirtualV6Address info = field line 4 /\
  Username info = field line 9 /\
  DataChannelCipher info = field line 12.
Proof.
  intros H.
  assert (Hlen : (13 <= List.length (fields line))%nat).
  { unfold parseClientListEntry in H. fold (fields line) in H.
    repeat (apply bind_Ok_inv in H; destruct H as (? & ? & H)).
    match goal with
    | E : index (fields line) 12 = Ok _ |- _ => apply index_Ok_inv in E; lia
    end. }
  split; [exact Hlen|].
  rewrite parseClientListEntry_long in H by exact Hlen.
  apply bind_Ok_inv in H; destruct H as (n5 & E5 & H).
  apply bind_Ok_inv in H; destruct H as (n6 & E6 & H).
  apply bind_Ok_inv in H; destruct H as (n8 & E8 & H).
  apply bind_Ok_inv in H; destruct H as (n10 & E10 & H).
  apply bind_Ok_inv in H; destruct H as (n11 & E11 & H).
  inversion H; subst; clear H. simpl.
  rewrite (wrap_i64_id n8) by (eapply Atoi_in_int64; eauto).
  repeat split; eauto.
Qed.

Lemma parseRoutingTableEntry_Ok_inv (line : string) (info : RoutingInfo) :
  parseRoutingTableEntry line = Ok info ->
  (6 <= List.length (fields line))%nat /\
  (exists n5, Atoi (field line 5) = Ok n5 /\ RLastRef info = Time.Unix n5 0) /\
  RVirtualAddress info = field line 1 /\
  RCommonName info = field line 2 /\
  RRealAddress info = field line 3.
Proof.
  intros H.
  assert (Hlen : (6 <= List.length (fields line))%nat).
  { unfold parseRoutingTableEntry in H. fold (fields line) in H.
    apply bind_Ok_inv in H; destruct H as (p5 & E & H).
    apply index_Ok_inv in E; lia. }
  split; [exact Hlen|].
  rewrite parseRoutingTableEntry_long in H by exact Hlen.
  apply bind_Ok_inv in H; destruct H as (n5 & E5 & H).
  inversion H; subst; clear H. simpl.
  rewrite (wrap_i64_id n5) by (eapply Atoi_in_int64; eauto).
  repeat split; eauto.
Qed.

(** ** The scanner, line by line *)

Lemma index_marker (line : string) :
  index (Split line splitCharacter) 0 = Ok (marker line).
Proof.
  fold (fields line). unfold marker, field.
  apply index_ok. pose proof (fields_nonempty line). lia.
Qed.

(** One turn of the loop, by the marker of the line. *)
Lemma scanLines_cons (line : string) (rest : list string)
    (clients : list ClientInfo) (routes : list RoutingInfo) :
  scanLines (line :: rest) clients routes =
  if String.eqb (marker line) "HEADER" then scanLines rest clients routes
  else if String.eqb (marker line) "END" then scanLines rest clients routes
  else if isClientLine line then
    info <- parseClientListEntry line ;;
    scanLines rest (clients ++ [info]) routes
  else if isRouteLine line then
    info <- parseRoutingTableEntry line ;;
    scanLines rest clients (routes ++ [info])
  else scanLines rest clients routes.
Proof.
  simpl scanLines. rewrite index_marker. reflexivity.
Qed.

(** Scanning a sequence of lines is scanning its first part, then the
    second from the slices the first leaves. *)
Lemma scanLines_app (pre post : list string) :
  forall clients routes,
  scanLines (pre ++ post) clients routes =
  (st <- scanLines pre clients routes ;; scanLines post (fst st) (snd st)).
Proof.
  induction pre as [|line pre IH]; intros clients routes.
  - reflexivity.
  - rewrite <- app_comm_cons, !scanLines_cons.
    destruct (String.eqb (marker line) "HEADER"); [apply IH|].
    destruct (String.eqb (marker line) "END"); [apply IH|].
    destruct (isClientLine line).
    { destruct (parseClientListEntry line); simpl; [apply IH | reflexivity..]. }
    destruct (isRouteLine line).
    { destruct (parseRoutingTableEntry line); simpl; [apply IH | reflexivity..]. }
    apply IH.
Qed.

Lemma skipped_anywhere (line : string) (pre post : list string) :
  skipped line ->
  ParseStatusFile (inr (pre ++ line :: post)%list) =
  ParseStatusFile (inr (pre ++ post)%list).
Proof.
  intros Hs. unfold ParseStatusFile.
  rewrite !scanLines_app.
  destruct (scanLines pre [] []) as [[cs rs]| |]; simpl; [apply Hs | reflexivity..].
Qed.

Lemma marker_cases (line : string) (m : string) :
  marker line = m ->
  String.eqb (marker line) "HEADER" = String.eqb m "HEADER" /\
  String.eqb (marker line) "END" = String.eqb m "END" /\
  isClientLine line = String.eqb m "CLIENT_LIST" /\
  isRouteLine line = String.eqb m "ROUTING_TABLE".
Proof.
  intros <-. repeat split; reflexivity.
Qed.

(** What a successful scan returns: the records of the CLIENT_LIST lines and
    of the ROUTING_TABLE lines, each in the order of the lines, after what
    the slices held. *)
Lemma scanLines_Ok (lines : list string) :
  forall clients routes cs rs,
  scanLines lines clients routes = Ok (cs, rs) ->
  exists cs' rs',
    cs = (clients ++ cs')%list /\ rs = (routes ++ rs')%list /\
    Forall2 (fun l c => parseClientListEntry l = Ok c)
            (filter isClientLine lines) cs' /\
    Forall2 (fun l r => parseRoutingTableEntry l = Ok r)
            (filter isRouteLine lines) rs'.
Proof.
  induction lines as [|line lines IH]; intros clients routes cs rs H.
  - simpl in H. inversion H; subst.
    exists [], []. rewrite !app_nil_r. repeat split; constructor.
  - rewrite scanLines_cons in H. simpl filter.
    destruct (String.eqb (marker line) "HEADER") eqn:EH.
    { apply String.eqb_eq in EH.
      destruct (marker_cases line _ EH) as (_ & _ & -> & ->). simpl.
      now apply IH. }
    destruct (String.eqb (marker line) "END") eqn:EE.
    { apply String.eqb_eq in EE.
      destruct (marker_cases line _ EE) as (_ & _ & -> & ->). simpl.
      now apply IH. }
    destruct (isClientLine line) eqn:EC.
    { pose proof EC as EC'. unfold isClientLine in EC'.
      apply String.eqb_eq in EC'.
      destruct (marker_cases line _ EC') as (_ & _ & _ & ->). simpl.
      apply bind_Ok_inv in H. destruct H as (info & Hinfo & H).
      apply IH in H. destruct H as (cs' & rs' & -> & -> & Hc & Hr).
      exists (info :: cs'), rs'. rewrite <- app_assoc. simpl.
      repeat split; auto. }
    destruct (isRouteLine line) eqn:ER.
    { apply bind_Ok_inv in H. destruct H as (info & Hinfo & H).
      apply IH in H. destruct H as (cs' & rs' & -> & -> & Hc & Hr).
      exists cs', (info :: rs'). rewrite <- app_assoc. simpl.
      repeat split; auto. }
    now apply IH.
Qed.

(** A CLIENT_LIST line one of whose five integer fields does not parse is
    decoded to the error of a conversion: the fields before it are there,
    and each conversion before it returns a value or its own error. *)
Lemma parseClientListEntry_malformed (line : string) (k : nat) :
  In k [5; 6; 8; 10; 11]%nat ->
  (k < List.length (fields line))%nat ->
  (forall n, Atoi (field line k) <> Ok n) ->
  exists e, parseClientListEntry line = Err (ENum e).
Proof.
  intros Hk Hlen Hbad.
  assert (Herr : exists kind,
            Atoi (field line k) = Err (ENum (mkNumError fnAtoi (field line k) kind))).
  { destruct (Atoi_returns (field line k)) as [[n E] | H]; [|exact H].
    exfalso. exact (Hbad n E). }
  destruct Herr as [kind Herr].
  unfold parseClientListEntry. fold (fields line).
  simpl in Hk.
  destruct Hk as [<- | [<- | [<- | [<- | [<- | []]]]]];
    repeat (rewrite index_ok by lia; cbn [bind];
            match goal with
            | |- context [Atoi (nth ?i (fields line) "")] =>
                change (nth i (fields line) "") with (field line i)
            end;
            first [ rewrite Herr; cbn [bind]; eexists; reflexivity
                  | match goal with
                    | |- context [Atoi (field line ?i)] =>
                        destruct (Atoi_returns (field line i)) as [[? ->] | [? ->]];
                        cbn [bind]; [|eexists; reflexivity]
                    end ]).
Qed.

Lemma index_cases (parts : list string) (i : nat) :
  (exists s, index parts i = Ok s) \/ (exists p, index parts i = Panic p).
Proof.
  unfold index. destruct (nth_error parts i); eauto.
Qed.

Ltac decode_error E :=
  repeat match type of E with
         | bind (index ?ps ?i) _ = _ =>
             let Hi := fresh "Hi" in
             destruct (index_cases ps i) as [[? Hi] | [? Hi]];
             rewrite Hi in E; cbn [bind] in E;
             [| discriminate]
         | bind (Atoi ?x) _ = _ =>
             let Ha := fresh "Ha" in
             destruct (Atoi_returns x) as [[? Ha] | [? Ha]];
             rewrite Ha in E; cbn [bind] in E;
             [| inversion E; eauto]
         end;
  try discriminate.

(** The only errors of the decoders and of the scan are those of [Atoi]. *)
Lemma parseClientListEntry_Err (line : string) (e : error) :
  parseClientListEntry line = Err e -> exists ne, e = ENum ne.
Proof.
  intros E. unfold parseClientListEntry in E. decode_error E.
Qed.

Lemma parseRoutingTableEntry_Err (line : string) (e : error) :
  parseRoutingTableEntry line = Err e -> exists ne, e = ENum ne.
Proof.
  intros E. unfold parseRoutingTableEntry in E. decode_error E.
Qed.

Lemma scanLines_Err (lines : list string) :
  forall clients routes e,
  scanLines lines clients routes = Err e -> exists ne, e = ENum ne.
Proof.
  induction lines as [|l ls IH]; intros cs0 rs0 e H; [discriminate|].
  rewrite scanLines_cons in H.
  destruct (String.eqb (marker l) "HEADER"); [eauto|].
  destruct (String.eqb (marker l) "END"); [eauto|].
  destruct (isClientLine l).
  { destruct (parseClientListEntry l) as [i | e2 | p2] eqn:E; cbn [bind] in H;
      [eauto | | discriminate].
    inversion H; subst. eapply parseClientListEntry_Err; eauto. }
  destruct (isRouteLine l); [|eauto].
  destruct (parseRoutingTableEntry l) as [i | e2 | p2] eqn:E; cbn [bind] in H;
    [eauto | | discriminate].
  inversion H; subst. eapply parseRoutingTableEntry_Err; eauto.
Qed.

(** The scan that meets such a line: nothing after the line is read, the
    scan does not succeed, and unless a line before it made the scan panic
    it returns an error of a conversion. *)
Lemma scan_malformed_client_line (pre post : list string) (line : string) (k : nat) :
  isClientLine line = true ->
  In k [5; 6; 8; 10; 11]%nat ->
  (k < List.length (fields line))%nat ->
  (forall n, Atoi (field line k) <> Ok n) ->
  ParseStatusFile (inr (pre ++ line :: post)%list) =
  ParseStatusFile (inr (pre ++ [line])%list) /\
  (forall st, ParseStatusFile (inr (pre ++ line :: post)%list) <> Ok st) /\
  ((forall p, ParseStatusFile (inr pre) <> Panic p) ->
   exists e, ParseStatusFile (inr (pre ++ line :: post)%list) = Err (ENum e)).
Proof.
  intros Hc Hk Hlen Hbad.
  destruct (parseClientListEntry_malformed line k Hk Hlen Hbad) as [e He].
  assert (Hline : forall rest cs rs, scanLines (line :: rest) cs rs = Err (ENum e)).
  { intros rest cs rs. rewrite scanLines_cons.
    pose proof Hc as Hm. unfold isClientLine in Hm. apply String.eqb_eq in Hm.
    destruct (marker_cases line _ Hm) as (-> & -> & _ & _). simpl.
    rewrite Hc, He. reflexivity. }
  unfold ParseStatusFile. rewrite !scanLines_app.
  destruct (scanLines pre [] []) as [[cs rs] | e0 | p] eqn:Hpre;
    cbn [bind fst snd]; rewrite ?Hline.
  - split; [reflexivity|]. split; [intros st; discriminate | eauto].
  - split; [reflexivity|]. split; [intros st; discriminate|].
    intros _. destruct (scanLines_Err _ _ _ _ Hpre) as [ne ->]. eauto.
  - split; [reflexivity|]. split; [intros st; discriminate|].
    intros Hnp. exfalso. exact (Hnp p eq_refl).
Qed.

(** * The claims *)

(** C1 (the code departs from it). The claim: a CLIENT_LIST line of fewer
    than 13 fields and a ROUTING_TABLE line of fewer than 6 are decoded to
    an ordinary error. The code indexes the fields without looking at their
    number: the cut lines below make both decoders, and the scan that reads
    them, panic with an index out of range; on a line of 12 fields whose
    integers are all fine the panic comes at the cipher. None of these
    calls returns an error value. *)
Theorem short_lines_panic :
  parseClientListEntry shortClientLine = Panic (IndexOutOfRange 5 2) /\
  parseRoutingTableEntry shortRouteLine = Panic (IndexOutOfRange 5 2) /\
  parseClientListEntry noCipherLine = Panic (IndexOutOfRange 12 12) /\
  ParseStatusFile (inr [shortClientLine]) = Panic (IndexOutOfRange 5 2) /\
  ParseStatusFile (inr [shortRouteLine]) = Panic (IndexOutOfRange 5 2).
Proof.
  repeat split; vm_compute; reflexivity.
Qed.

(** C2 (the code departs from it). The claim: every sequence of lines that
    holds a CLIENT_LIST line with a malformed integer field makes the scan
    return the error of that field. When a cut line comes first the scan
    panics on it and returns nothing, the malformed line never read; this
    is the missing length check of C1 again. Where no earlier line makes
    the scan panic the claim holds: [scan_malformed_client_line]. *)
Theorem malformed_line_after_short_line :
  ParseStatusFile (inr [shortClientLine; malformedLine]) =
    Panic (IndexOutOfRange 5 2) /\
  (exists e, parseClientListEntry malformedLine = Err (ENum e)) /\
  (exists e, ParseStatusFile (inr [aliceLine; malformedLine; aliceRoute]) =
             Err (ENum e)).
Proof.
  split; [vm_compute; reflexivity|].
  split; eexists; vm_compute; reflexivity.
Qed.

(** C3. A line whose marker is END does not stop the scan: the loop steps
    over it, and a file with such a line anywhere is scanned to the same
    result, records of the later lines included, as the file without it. *)
Theorem END_line_does_not_stop_scan (pre post : list string) (line : string) :
  marker line = "END" ->
  (forall rest clients routes,
     scanLines (line :: rest) clients routes = scanLines rest clients routes) /\
  ParseStatusFile (inr (pre ++ line :: post)%list) =
  ParseStatusFile (inr (pre ++ post)%list).
Proof.
  intros Hm.
  assert (Hs : skipped line).
  { intros rest cs rs. rewrite scanLines_cons.
    destruct (marker_cases line _ Hm) as (-> & -> & _ & _). reflexivity. }
  split; [exact Hs | now apply skipped_anywhere].
Qed.

Lemma END_line_does_not_stop_scan_witness :
  marker "END" = "END" /\
  ParseStatusFile (inr ([headerLine] ++ "END" :: [aliceLine; aliceRoute])%list) =
  ParseStatusFile (inr ([headerLine] ++ [aliceLine; aliceRoute])%list) /\
  ParseStatusFile (inr ([headerLine] ++ [aliceLine; aliceRoute])%list) =
  Ok ([aliceRecord], [aliceRouteRecord]).
Proof.
  split; [reflexivity|]. split.
  - exact (proj2 (END_line_does_not_stop_scan
                    [headerLine] [aliceLine; aliceRoute] "END" eq_refl)).
  - vm_compute; reflexivity.
Defined.

(** C4. A CLIENT_LIST line of at least 13 fields whose fields 5, 6, 8, 10
    and 11 are base-10 integers (of the range of [int], which is what
    [Atoi] converts: [Atoi_Ok_iff]) is decoded, without error, to the record
    with Name, RealAddress, VirtualAddress and VirtualV6Address the fields 1
    to 4 as they are, BytesReceived and BytesSent the values of fields 5 and
    6, ConnectedSince the time of the seconds of field 8 with no fraction of
    a second, Username field 9, ClientID and PeerID the values of fields 10
    and 11, DataChannelCipher field 12. The line of alice is decoded to the
    record of the scenario. *)
Theorem client_line_decodes :
  (forall line n5 n6 n8 n10 n11,
     (13 <= List.length (fields line))%nat ->
     intField (field line 5) n5 ->
     intField (field line 6) n6 ->
     intField (field line 8) n8 ->
     intField (field line 10) n10 ->
     intField (field line 11) n11 ->
     parseClientListEntry line =
       Ok {| Name              := field line 1;
             RealAddress       := field line 2;
             VirtualAddress    := field line 3;
             VirtualV6Address  := field line 4;
             BytesReceived     := n5;
             BytesSent         := n6;
             ConnectedSince    := Time.Unix n8 0;
             Username          := field line 9;
             ClientID          := n10;
             PeerID            := n11;
             DataChannelCipher := field line 12 |} /\
     Time.UnixSec (Time.Unix n8 0) = n8 /\
     Time.Nanosecond (Time.Unix n8 0) = 0) /\
  parseClientListEntry aliceLine = Ok aliceRecord.
Proof.
  split; [|vm_compute; reflexivity].
  intros line n5 n6 n8 n10 n11 Hlen H5 H6 H8 H10 H11.
  pose proof (proj2 H8) as Hr8.
  apply Atoi_Ok_iff in H5, H6, H8, H10, H11.
  split; [|now apply Time_Unix_roundtrip].
  rewrite parseClientListEntry_long by exact Hlen.
  rewrite H5, H6, H8, H10, H11. cbn [bind].
  now rewrite wrap_i64_id.
Qed.

Lemma client_line_decodes_witness :
  ((13 <= List.length (fields bobLine))%nat /\
   intField (field bobLine 5) 30 /\
   intField (field bobLine 6) 40 /\
   intField (field bobLine 8) 1704067201 /\
   intField (field bobLine 10) 7 /\
   intField (field bobLine 11) 8) /\
  parseClientListEntry bobLine = Ok bobRecord.
Proof.
  assert (Hlen : (13 <= List.length (fields bobLine))%nat)
    by (vm_compute; lia).
  assert (H5 : intField (field bobLine 5) 30)
    by (split; [reflexivity | vm_compute; split; discriminate]).
  assert (H6 : intField (field bobLine 6) 40)
    by (split; [reflexivity | vm_compute; split; discriminate]).
  assert (H8 : intField (field bobLine 8) 1704067201)
    by (split; [reflexivity | vm_compute; split; discriminate]).
  assert (H10 : intField (field bobLine 10) 7)
    by (split; [reflexivity | vm_compute; split; discriminate]).
  assert (H11 : intField (field bobLine 11) 8)
    by (split; [reflexivity | vm_compute; split; discriminate]).
  split; [exact (conj Hlen (conj H5 (conj H6 (conj H8 (conj H10 H11)))))|].
  exact (proj1 (proj1 client_line_decodes bobLine 30 40 1704067201 7 8
                  Hlen H5 H6 H8 H10 H11)).
Defined.

(** C5. A ROUTING_TABLE line of at least 6 fields whose field 5 is a signed
    base-10 integer is decoded, without error, to the record with
    VirtualAddress field 1, CommonName field 2, RealAddress field 3 and
    LastRef the time of the seconds of field 5, with no fraction of a
    second. *)
Theorem routing_line_decodes (line : string) (n5 : Z) :
  (6 <= List.length (fields line))%nat ->
  intField (field line 5) n5 ->
  parseRoutingTableEntry line =
    Ok {| RVirtualAddress := field line 1;
          RCommonName     := field line 2;
          RRealAddress    := field line 3;
          RLastRef        := Time.Unix n5 0 |} /\
  Time.UnixSec (Time.Unix n5 0) = n5 /\
  Time.Nanosecond (Time.Unix n5 0) = 0.
Proof.
  intros Hlen H5.
  pose proof (proj2 H5) as Hr5.
  apply Atoi_Ok_iff in H5.
  split; [|now apply Time_Unix_roundtrip].
  rewrite parseRoutingTableEntry_long by exact Hlen.
  rewrite H5. cbn [bind]. now rewrite wrap_i64_id.
Qed.

Lemma routing_line_decodes_witness :
  ((6 <= List.length (fields aliceRoute))%nat /\
   intField (field aliceRoute 5) 1704067200) /\
  parseRoutingTableEntry aliceRoute = Ok aliceRouteRecord /\
  Time.UnixSec (RLastRef aliceRouteRecord) = 1704067200 /\
  Time.Nanosecond (RLastRef aliceRouteRecord) = 0.
Proof.
  assert (Hlen : (6 <= List.length (fields aliceRoute))%nat)
    by (vm_compute; lia).
  assert (H5 : intField (field aliceRoute 5) 1704067200)
    by (split; [reflexivity | vm_compute; split; discriminate]).
  split; [exact (conj Hlen H5)|].
  exact (routing_line_decodes aliceRoute 1704067200 Hlen H5).
Defined.

(** C6. A line whose marker is HEADER, or any marker other than END,
    CLIENT_LIST and ROUTING_TABLE, the empty marker of an empty line among
    them, gives no record and no error: the loop goes on to the next line
    with both slices as they were, such a line alone is scanned to two empty
    sequences, and a file with such a line anywhere is scanned to the same
    result as the file without it. *)
Theorem ignored_lines_skipped (pre post : list string) (line : string) :
  marker line <> "END" ->
  marker line <> "CLIENT_LIST" ->
  marker line <> "ROUTING_TABLE" ->
  (forall rest clients routes,
     scanLines (line :: rest) clients routes = scanLines rest clients routes) /\
  ParseStatusFile (inr [line]) = Ok ([], []) /\
  ParseStatusFile (inr (pre ++ line :: post)%list) =
  ParseStatusFile (inr (pre ++ post)%list).
Proof.
  intros HE HC HR.
  assert (Hs : skipped line).
  { intros rest cs rs. rewrite scanLines_cons.
    destruct (String.eqb (marker line) "HEADER"); [reflexivity|].
    destruct (String.eqb (marker line) "END") eqn:EE;
      [apply String.eqb_eq in EE; contradiction|].
    unfold isClientLine, isRouteLine.
    destruct (String.eqb (marker line) "CLIENT_LIST") eqn:EC;
      [apply String.eqb_eq in EC; contradiction|].
    destruct (String.eqb (marker line) "ROUTING_TABLE") eqn:ER;
      [apply String.eqb_eq in ER; contradiction|].
    reflexivity. }
  split; [exact Hs|]. split.
  - unfold ParseStatusFile. now rewrite Hs.
  - now apply skipped_anywhere.
Qed.

Lemma ignored_lines_skipped_witness :
  (marker "" <> "END" /\ marker "" <> "CLIENT_LIST" /\
   marker "" <> "ROUTING_TABLE") /\
  (marker headerLine <> "END" /\ marker headerLine <> "CLIENT_LIST" /\
   marker headerLine <> "ROUTING_TABLE") /\
  (marker "FOO,bar" <> "END" /\ marker "FOO,bar" <> "CLIENT_LIST" /\
   marker "FOO,bar" <> "ROUTING_TABLE") /\
  ParseStatusFile (inr [""]) = Ok ([], []) /\
  ParseStatusFile (inr [headerLine]) = Ok ([], []) /\
  ParseStatusFile (inr ["FOO,bar"]) = Ok ([], []) /\
  ParseStatusFile (inr ([aliceLine] ++ "" :: [aliceRoute])%list) =
  ParseStatusFile (inr ([aliceLine] ++ [aliceRoute])%list).
Proof.
  assert (He : marker "" <> "END" /\ marker "" <> "CLIENT_LIST" /\
               marker "" <> "ROUTING_TABLE")
    by (repeat split; discriminate).
  assert (Hh : marker headerLine <> "END" /\ marker headerLine <> "CLIENT_LIST" /\
               marker headerLine <> "ROUTING_TABLE")
    by (repeat split; discriminate).
  assert (Hf : marker "FOO,bar" <> "END" /\ marker "FOO,bar" <> "CLIENT_LIST" /\
               marker "FOO,bar" <> "ROUTING_TABLE")
    by (repeat split; discriminate).
  split; [exact He|]. split; [exact Hh|]. split; [exact Hf|].
  destruct He as (He1 & He2 & He3).
  destruct Hh as (Hh1 & Hh2 & Hh3).
  destruct Hf as (Hf1 & Hf2 & Hf3).
  split.
  { exact (proj1 (proj2 (ignored_lines_skipped [] [] "" He1 He2 He3))). }
  split.
  { exact (proj1 (proj2 (ignored_lines_skipped [] [] headerLine Hh1 Hh2 Hh3))). }
  split.
  { exact (proj1 (proj2 (ignored_lines_skipped [] [] "FOO,bar" Hf1 Hf2 Hf3))). }
  exact (proj2 (proj2 (ignored_lines_skipped [aliceLine] [aliceRoute] ""
                         He1 He2 He3))).
Defined.

(** C7. When the scan succeeds, the client sequence it returns is the
    sequence of the records of the CLIENT_LIST lines, one for one and in the
    order of those lines in the input, and the routing sequence is that of
    the ROUTING_TABLE lines in their order; lines of the other kind and
    ignored lines in between have no part in either. *)
Theorem scan_preserves_order (lines : list string)
    (cs : list ClientInfo) (rs : list RoutingInfo) :
  ParseStatusFile (inr lines) = Ok (cs, rs) ->
  Forall2 (fun l c => parseClientListEntry l = Ok c)
          (filter isClientLine lines) cs /\
  Forall2 (fun l r => parseRoutingTableEntry l = Ok r)
          (filter isRouteLine lines) rs.
Proof.
  unfold ParseStatusFile. intros H.
  apply scanLines_Ok in H.
  destruct H as (cs' & rs' & -> & -> & Hc & Hr). auto.
Qed.

Lemma scan_preserves_order_witness :
  ParseStatusFile (inr [headerLine; aliceLine; aliceRoute; "END"; bobLine]) =
    Ok ([aliceRecord; bobRecord], [aliceRouteRecord]) /\
  Forall2 (fun l c => parseClientListEntry l = Ok c)
          [aliceLine; bobLine] [aliceRecord; bobRecord] /\
  Forall2 (fun l r => parseRoutingTableEntry l = Ok r)
          [aliceRoute] [aliceRouteRecord].
Proof.
  assert (H : ParseStatusFile
                (inr [headerLine; aliceLine; aliceRoute; "END"; bobLine]) =
              Ok ([aliceRecord; bobRecord], [aliceRouteRecord]))
    by (vm_compute; reflexivity).
  split; [exact H|].
  exact (scan_preserves_order _ _ _ H).
Defined.

(** C8. For a CLIENT_LIST line of 13 fields (or more) whose five integer
    fields are base-10 integers of the range of [int], the decoded record
    gives back those five integers: BytesReceived, BytesSent, ClientID and
    PeerID are the integers of fields 5, 6, 10 and 11, and the Unix seconds
    of ConnectedSince are the integer of field 8, its nanoseconds being 0. *)
Theorem client_integers_roundtrip (line : string) (n5 n6 n8 n10 n11 : Z) :
  (13 <= List.length (fields line))%nat ->
  intField (field line 5) n5 ->
  intField (field line 6) n6 ->
  intField (field line 8) n8 ->
  intField (field line 10) n10 ->
  intField (field line 11) n11 ->
  exists info,
    parseClientListEntry line = Ok info /\
    BytesReceived info = n5 /\
    BytesSent info = n6 /\
    Time.UnixSec (ConnectedSince info) = n8 /\
    Time.Nanosecond (ConnectedSince info) = 0 /\
    ClientID info = n10 /\
    PeerID info = n11.
Proof.
  intros Hlen H5 H6 H8 H10 H11.
  pose proof (proj2 H8) as Hr8.
  apply Atoi_Ok_iff in H5, H6, H8, H10, H11.
  rewrite parseClientListEntry_long by exact Hlen.
  rewrite H5, H6, H8, H10, H11. cbn [bind].
  eexists. split; [reflexivity|]. cbn.
  rewrite wrap_i64_id by exact Hr8.
  destruct (Time_Unix_roundtrip n8 Hr8) as [Hs Hn].
  repeat split; assumption.
Qed.

Lemma client_integers_roundtrip_witness :
  ((13 <= List.length (fields aliceLine))%nat /\
   intField (field aliceLine 5) 1000 /\
   intField (field aliceLine 6) 2000 /\
   intField (field aliceLine 8) 1704067200 /\
   intField (field aliceLine 10) 5 /\
   intField (field aliceLine 11) 6) /\
  exists info,
    parseClientListEntry aliceLine = Ok info /\
    BytesReceived info = 1000 /\
    BytesSent info = 2000 /\
    Time.UnixSec (ConnectedSince info) = 1704067200 /\
    Time.Nanosecond (ConnectedSince info) = 0 /\
    ClientID info = 5 /\
    PeerID info = 6.
Proof.
  assert (Hlen : (13 <= List.length (fields aliceLine))%nat)
    by (vm_compute; lia).
  assert (H5 : intField (field aliceLine 5) 1000)
    by (split; [reflexivity | vm_compute; split; discriminate]).
  assert (H6 : intField (field aliceLine 6) 2000)
    by (split; [reflexivity | vm_compute; split; discriminate]).
  assert (H8 : intField (field aliceLine 8) 1704067200)
    by (split; [reflexivity | vm_compute; split; discriminate]).
  assert (H10 : intField (field aliceLine 10) 5)
    by (split; [reflexivity | vm_compute; split; discriminate]).
  assert (H11 : intField (field aliceLine 11) 6)
    by (split; [reflexivity | vm_compute; split; discriminate]).
  split; [exact (conj Hlen (conj H5 (conj H6 (conj H8 (conj H10 H11)))))|].
  exact (client_integers_roundtrip aliceLine 1000 2000 1704067200 5 6
           Hlen H5 H6 H8 H10 H11).
Defined.

(** C9, as the code has it. The claim: the four counters of a decoded
    record are never negative. [Atoi] reads a leading minus sign, and the
    decoder keeps what it reads: the line of alice with signs before the
    counters is decoded, without error, to negative counters. *)
Lemma negative_counters_decoded :
  parseClientListEntry negativeLine = Ok negativeRecord /\
  ~ (0 <= BytesReceived negativeRecord) /\
  ~ (0 <= BytesSent negativeRecord) /\
  ~ (0 <= ClientID negativeRecord) /\
  ~ (0 <= PeerID negativeRecord).
Proof.
  split; [vm_compute; reflexivity|].
  repeat split; simpl; lia.
Qed.

(** C9, amended. In every record of a successful decode, the bytes
    received, the bytes sent, the client identifier and the peer identifier
    are the signed base-10 integers of fields 5, 6, 10 and 11, between
    -2^63 and 2^63-1; each is not negative when its field does not start
    with a minus sign. *)
Theorem client_counters_signed (line : string) (info : ClientInfo) :
  parseClientListEntry line = Ok info ->
  (intField (field line 5) (BytesReceived info) /\
   (startsMinus (field line 5) = false -> 0 <= BytesReceived info)) /\
  (intField (field line 6) (BytesSent info) /\
   (startsMinus (field line 6) = false -> 0 <= BytesSent info)) /\
  (intField (field line 10) (ClientID info) /\
   (startsMinus (field line 10) = false -> 0 <= ClientID info)) /\
  (intField (field line 11) (PeerID info) /\
   (startsMinus (field line 11) = false -> 0 <= PeerID info)).
Proof.
  intros H. apply parseClientListEntry_Ok_inv in H.
  destruct H as (_ & H5 & H6 & _ & H10 & H11 & _).
  repeat split;
    try (apply Atoi_Ok_iff; assumption);
    try (apply Atoi_in_int64 in H5; apply H5);
    try (apply Atoi_in_int64 in H6; apply H6);
    try (apply Atoi_in_int64 in H10; apply H10);
    try (apply Atoi_in_int64 in H11; apply H11);
    intros Hs; eapply Atoi_nonneg; eauto.
Qed.

Lemma client_counters_signed_witness :
  parseClientListEntry negativeLine = Ok negativeRecord /\
  intField (field negativeLine 5) (-1000) /\
  intField (field negativeLine 6) (-2000) /\
  intField (field negativeLine 10) (-5) /\
  intField (field negativeLine 11) (-6).
Proof.
  assert (H : parseClientListEntry negativeLine = Ok negativeRecord)
    by (vm_compute; reflexivity).
  split; [exact H|].
  pose proof (client_counters_signed negativeLine negativeRecord H) as W.
  exact (conj (proj1 (proj1 W))
          (conj (proj1 (proj1 (proj2 W)))
            (conj (proj1 (proj1 (proj2 (proj2 W))))
                  (proj1 (proj2 (proj2 (proj2 W))))))).
Defined.

(** C10. What the client-list decoder returns for a line of at least 13
    fields depends on the fields 1 to 6 and 8 to 12 only. Two such lines
    that agree on these fields are decoded to the same result, whatever
    their field 7 and their fields after the 12th; when the five integer
    fields are base-10 integers of the range of [int] both are decoded
    successfully, to the one record made of these fields. A line of more
    than 13 fields, a line of at least 13 fields with more fields added
    after a separator, is decoded successfully to the record of its first
    13 fields, the same as for the line without the added fields. *)
Theorem client_decode_ignores_display_and_extra_fields :
  (forall l1 l2,
     (13 <= List.length (fields l1))%nat ->
     (13 <= List.length (fields l2))%nat ->
     (forall i, In i [1; 2; 3; 4; 5; 6; 8; 9; 10; 11; 12]%nat ->
                field l1 i = field l2 i) ->
     parseClientListEntry l1 = parseClientListEntry l2 /\
     (forall n5 n6 n8 n10 n11,
        intField (field l1 5) n5 ->
        intField (field l1 6) n6 ->
        intField (field l1 8) n8 ->
        intField (field l1 10) n10 ->
        intField (field l1 11) n11 ->
        parseClientListEntry l2 =
          Ok {| Name              := field l1 1;
                RealAddress       := field l1 2;
                VirtualAddress    := field l1 3;
                VirtualV6Address  := field l1 4;
                BytesReceived     := n5;
                BytesSent         := n6;
                ConnectedSince    := Time.Unix n8 0;
                Username          := field l1 9;
                ClientID          := n10;
                PeerID            := n11;
                DataChannelCipher := field l1 12 |})) /\
  (forall line extra,
     (13 <= List.length (fields line))%nat ->
     (13 < List.length (fields (line ++ String splitCharacter extra)))%nat /\
     parseClientListEntry (line ++ String splitCharacter extra) =
     parseClientListEntry line /\
     (forall n5 n6 n8 n10 n11,
        intField (field line 5) n5 ->
        intField (field line 6) n6 ->
        intField (field line 8) n8 ->
        intField (field line 10) n10 ->
        intField (field line 11) n11 ->
        parseClientListEntry (line ++ String splitCharacter extra) =
          Ok {| Name              := field line 1;
                RealAddress       := field line 2;
                VirtualAddress    := field line 3;
                VirtualV6Address  := field line 4;
                BytesReceived     := n5;
                BytesSent         := n6;
                ConnectedSince    := Time.Unix n8 0;
                Username          := field line 9;
                ClientID          := n10;
                PeerID            := n11;
                DataChannelCipher := field line 12 |})).
Proof.
  assert (Hagree : forall l1 l2,
     (13 <= List.length (fields l1))%nat ->
     (13 <= List.length (fields l2))%nat ->
     (forall i, In i [1; 2; 3; 4; 5; 6; 8; 9; 10; 11; 12]%nat ->
                field l1 i = field l2 i) ->
     parseClientListEntry l1 = parseClientListEntry l2).
  { intros l1 l2 H1 H2 Hf.
    rewrite (parseClientListEntry_long l1 H1), (parseClientListEntry_long l2 H2).
    rewrite (Hf 1%nat), (Hf 2%nat), (Hf 3%nat), (Hf 4%nat), (Hf 5%nat),
            (Hf 6%nat), (Hf 8%nat), (Hf 9%nat), (Hf 10%nat), (Hf 11%nat),
            (Hf 12%nat) by (simpl; tauto).
    reflexivity. }
  assert (Hdecode : forall line n5 n6 n8 n10 n11,
     (13 <= List.length (fields line))%nat ->
     intField (field line 5) n5 ->
     intField (field line 6) n6 ->
     intField (field line 8) n8 ->
     intField (field line 10) n10 ->
     intField (field line 11) n11 ->
     parseClientListEntry line =
       Ok {| Name              := field line 1;
             RealAddress       := field line 2;
             VirtualAddress    := field line 3;
             VirtualV6Address  := field line 4;
             BytesReceived     := n5;
             BytesSent         := n6;
             ConnectedSince    := Time.Unix n8 0;
             Username          := field line 9;
             ClientID          := n10;
             PeerID            := n11;
             DataChannelCipher := field line 12 |}).
  { intros line n5 n6 n8 n10 n11 Hlen H5 H6 H8 H10 H11.
    pose proof (proj2 H8) as Hr8.
    apply Atoi_Ok_iff in H5, H6, H8, H10, H11.
    rewrite parseClientListEntry_long by exact Hlen.
    rewrite H5, H6, H8, H10, H11. cbn [bind].
    now rewrite wrap_i64_id. }
  split.
  - intros l1 l2 H1 H2 Hf. split; [now apply Hagree|].
    intros n5 n6 n8 n10 n11 H5 H6 H8 H10 H11.
    rewrite <- (Hagree l1 l2 H1 H2 Hf). now apply Hdecode.
  - intros line extra Hlen.
    assert (Hfs : fields (line ++ String splitCharacter extra) =
                  (fields line ++ fields extra)%list)
      by (unfold fields; apply Split_app_sep).
    assert (Hsame : parseClientListEntry (line ++ String splitCharacter extra) =
                    parseClientListEntry line).
    { apply Hagree.
      - rewrite Hfs, length_app. lia.
      - exact Hlen.
      - intros i Hi. unfold field. rewrite Hfs.
        apply app_nth1. simpl in Hi. lia. }
    split.
    { rewrite Hfs, length_app. pose proof (fields_nonempty extra). lia. }
    split; [exact Hsame|].
    intros n5 n6 n8 n10 n11 H5 H6 H8 H10 H11.
    rewrite Hsame. now apply Hdecode.
Qed.

Lemma client_decode_ignores_display_and_extra_fields_witness :
  ((13 <= List.length (fields aliceLine))%nat /\
   (13 <= List.length (fields aliceLineLonger))%nat /\
   (forall i, In i [1; 2; 3; 4; 5; 6; 8; 9; 10; 11; 12]%nat ->
              field aliceLine i = field aliceLineLonger i) /\
   intField (field aliceLine 5) 1000 /\
   intField (field aliceLine 6) 2000 /\
   intField (field aliceLine 8) 1704067200 /\
   intField (field aliceLine 10) 5 /\
   intField (field aliceLine 11) 6) /\
  field aliceLine 7 <> field aliceLineLonger 7 /\
  (13 < List.length (fields aliceLineLonger))%nat /\
  parseClientListEntry aliceLineLonger = Ok aliceRecord /\
  parseClientListEntry (aliceLine ++ String splitCharacter "extra,fields") =
    Ok aliceRecord.
Proof.
  assert (H1 : (13 <= List.length (fields aliceLine))%nat)
    by (vm_compute; lia).
  assert (H2 : (13 <= List.length (fields aliceLineLonger))%nat)
    by (vm_compute; lia).
  assert (Hf : forall i, In i [1; 2; 3; 4; 5; 6; 8; 9; 10; 11; 12]%nat ->
                         field aliceLine i = field aliceLineLonger i).
  { intros i Hi. simpl in Hi.
    repeat (destruct Hi as [<- | Hi]; [reflexivity|]). destruct Hi. }
  assert (H5 : intField (field aliceLine 5) 1000)
    by (split; [reflexivity | vm_compute; split; discriminate]).
  assert (H6 : intField (field aliceLine 6) 2000)
    by (split; [reflexivity | vm_compute; split; discriminate]).
  assert (H8 : intField (field aliceLine 8) 1704067200)
    by (split; [reflexivity | vm_compute; split; discriminate]).
  assert (H10 : intField (field aliceLine 10) 5)
    by (split; [reflexivity | vm_compute; split; discriminate]).
  assert (H11 : intField (field aliceLine 11) 6)
    by (split; [reflexivity | vm_compute; split; discriminate]).
  split;
    [exact (conj H1 (conj H2 (conj Hf (conj H5 (conj H6 (conj H8 (conj H10 H11)))))))|].
  split; [vm_compute; discriminate|].
  split; [vm_compute; lia|].
  split.
  - exact (proj2 (proj1 client_decode_ignores_display_and_extra_fields
                    aliceLine aliceLineLonger H1 H2 Hf)
             1000 2000 1704067200 5 6 H5 H6 H8 H10 H11).
  - exact (proj2 (proj2 (proj2 client_decode_ignores_display_and_extra_fields
                           aliceLine "extra,fields" H1))
             1000 2000 1704067200 5 6 H5 H6 H8 H10 H11).
Defined.

(** * Further properties of the code *)

(** ** strings.Split, as the three functions call it *)

Lemma Split_no_sep (f : string) (sep : ascii) :
  Count f sep = 0%nat -> Split f sep = [f].
Proof.
  induction f as [|c f IH]; simpl; [reflexivity|].
  destruct (Ascii.eqb c sep); [discriminate|].
  simpl. intros H. now rewrite IH.
Qed.

Lemma Split_fields_no_sep (s : string) (sep : ascii) :
  Forall (fun f => Count f sep = 0%nat) (Split s sep).
Proof.
  induction s as [|c s IH]; simpl.
  - repeat constructor.
  - destruct (Ascii.eqb c sep) eqn:E.
    + constructor; [reflexivity | exact IH].
    + destruct (Split_cons s sep) as (f & fs & Hs). rewrite Hs in *.
      inversion IH; subst. constructor; [|assumption].
      simpl. now rewrite E.
Qed.

Lemma concat_Split (s : string) (sep : ascii) :
  String.concat (String sep EmptyString) (Split s sep) = s.
Proof.
  induction s as [|c s IH]; simpl; [reflexivity|].
  destruct (Ascii.eqb c sep) eqn:E.
  - apply Ascii.eqb_eq in E. subst c.
    destruct (Split_cons s sep) as (f & fs & Hs). rewrite Hs in *.
    simpl in *. now rewrite IH.
  - destruct (Split_cons s sep) as (f & fs & Hs). rewrite Hs in *.
    destruct fs as [|g gs]; simpl in *; now rewrite IH.
Qed.

Lemma Split_concat (fs : list string) (sep : ascii) :
  fs <> [] ->
  Forall (fun f => Count f sep = 0%nat) fs ->
  Split (String.concat (String sep EmptyString) fs) sep = fs.
Proof.
  induction fs as [|f fs IH]; intros Hne Hall; [congruence|].
  inversion Hall as [|? ? Hf Hfs]; subst.
  destruct fs as [|g gs].
  - simpl. now apply Split_no_sep.
  - change (String.concat (String sep EmptyString) (f :: g :: gs))
      with (f ++ String sep (String.concat (String sep EmptyString) (g :: gs))).
    rewrite Split_app_sep, Split_no_sep by assumption.
    rewrite IH by (congruence || assumption). reflexivity.
Qed.

(** X1. [Split] loses nothing and invents nothing: the fields of a line
    are one more than its separators, none of them holds a separator, and
    joined by the separator they give the line back. *)
Theorem Split_decomposes (s : string) (sep : ascii) :
  List.length (Split s sep) = S (Count s sep) /\
  Forall (fun f => Count f sep = 0%nat) (Split s sep) /\
  String.concat (String sep EmptyString) (Split s sep) = s.
Proof.
  split; [apply Split_length|].
  split; [apply Split_fields_no_sep | apply concat_Split].
Qed.

(** X2. The fields of a line written from fields are those fields: for one
    field or more, none holding the separator, [Split] of their join by the
    separator is the list of the fields, empty fields kept. *)
Theorem Split_of_joined_fields (fs : list string) (sep : ascii) :
  fs <> [] ->
  Forall (fun f => Count f sep = 0%nat) fs ->
  Split (String.concat (String sep EmptyString) fs) sep = fs.
Proof.
  exact (Split_concat fs sep).
Qed.

Lemma Split_of_joined_fields_witness :
  (["a"; ""; "b"] <> [] /\
   Forall (fun f => Count f splitCharacter = 0%nat) ["a"; ""; "b"]) /\
  Split "a,,b" splitCharacter = ["a"; ""; "b"].
Proof.
  assert (Hne : ["a"; ""; "b"] <> []) by discriminate.
  assert (Hall : Forall (fun f => Count f splitCharacter = 0%nat) ["a"; ""; "b"])
    by (repeat constructor).
  split; [exact (conj Hne Hall)|].
  exact (Split_of_joined_fields ["a"; ""; "b"] splitCharacter Hne Hall).
Defined.

(** The marker of a line is what stands before its first separator. *)
Lemma marker_iff (line m : string) :
  Count m splitCharacter = 0%nat ->
  marker line = m <->
  line = m \/ exists rest, line = m ++ String splitCharacter rest.
Proof.
  intros Hm. split.
  - intros H. unfold marker, field, fields in H.
    pose proof (concat_Split line splitCharacter) as Hc.
    destruct (Split_cons line splitCharacter) as (f & fs & Hs).
    rewrite Hs in *. simpl in H. subst f.
    destruct fs as [|g gs].
    + left. simpl in Hc. congruence.
    + right. exists (String.concat (String splitCharacter EmptyString) (g :: gs)).
      rewrite <- Hc. reflexivity.
  - intros [-> | [rest ->]]; unfold marker, field, fields.
    + now rewrite Split_no_sep.
    + rewrite Split_app_sep, Split_no_sep by assumption. reflexivity.
Qed.

(** ** strconv.Atoi, as the decoders call it *)

(** X4. The strings [Atoi] converts are the base-10 integers of the range
    of [int] and no others: [Atoi s] returns [n] without error exactly when
    [s] is one or more decimal digits, after at most one sign, whose value
    is [n], and [n] is between -2^63 and 2^63-1. Spaces, an empty string, a
    sign alone, a fraction or an underscore make the conversion fail. *)
Theorem Atoi_reads_base10 (s : string) (n : Z) :
  Atoi s = Ok n <-> decimal s = Some n /\ minInt64 <= n <= maxInt64.
Proof.
  exact (Atoi_Ok_iff s n).
Qed.

(** X5. A failed conversion is an error value that names the function and
    the string, never a panic: for digits whose value is outside the range
    of [int] it is [ErrRange], and for a string that is not an optionally
    signed run of digits it is a [*NumError] as well. *)
Theorem Atoi_failure_names_input (s : string) :
  (forall n, decimal s = Some n -> ~ in_int64 n ->
             Atoi s = Err (ENum (mkNumError "Atoi" s ErrRange))) /\
  (decimal s = None ->
   exists kind, Atoi s = Err (ENum (mkNumError "Atoi" s kind))).
Proof.
  pose proof (Atoi_spec s) as H. split.
  - intros n Hd Hr. rewrite Hd in H.
    destruct (inRange n) eqn:E; [apply inRange_spec in E; contradiction|].
    exact H.
  - intros Hd. rewrite Hd in H. exact H.
Qed.

Lemma Atoi_failure_names_input_witness :
  (decimal "9223372036854775808" = Some 9223372036854775808 /\
   ~ in_int64 9223372036854775808 /\
   decimal "1 000" = None) /\
  Atoi "9223372036854775808" =
    Err (ENum (mkNumError "Atoi" "9223372036854775808" ErrRange)) /\
  exists kind, Atoi "1 000" = Err (ENum (mkNumError "Atoi" "1 000" kind)).
Proof.
  assert (Hd : decimal "9223372036854775808" = Some 9223372036854775808)
    by reflexivity.
  assert (Hr : ~ in_int64 9223372036854775808)
    by (unfold in_int64, maxInt64; intros [_ H]; vm_compute in H; apply H; reflexivity).
  assert (Hn : decimal "1 000" = None) by reflexivity.
  split; [exact (conj Hd (conj Hr Hn))|].
  split.
  - exact (proj1 (Atoi_failure_names_input "9223372036854775808") _ Hd Hr).
  - exact (proj2 (Atoi_failure_names_input "1 000") Hn).
Defined.

(** ** The decoders *)

Lemma parseClientListEntry_build (line : string) (info : ClientInfo) (n8 : Z) :
  (13 <= List.length (fields line))%nat ->
  Atoi (field line 5) = Ok (BytesReceived info) ->
  Atoi (field line 6) = Ok (BytesSent info) ->
  Atoi (field line 8) = Ok n8 ->
  ConnectedSince info = Time.Unix n8 0 ->
  Atoi (field line 10) = Ok (ClientID info) ->
  Atoi (field line 11) = Ok (PeerID info) ->
  Name info = field line 1 ->
  RealAddress info = field line 2 ->
  VirtualAddress info = field line 3 ->
  VirtualV6Address info = field line 4 ->
  Username info = field line 9 ->
  DataChannelCipher info = field line 12 ->
  parseClientListEntry line = Ok info.
Proof.
  intros Hlen H5 H6 H8 Ht H10 H11 F1 F2 F3 F4 F9 F12.
  rewrite parseClientListEntry_long by exact Hlen.
  rewrite H5, H6, H8, H10, H11. cbn [bind].
  rewrite wrap_i64_id by (eapply Atoi_in_int64; eauto).
  destruct info; simpl in *; subst. reflexivity.
Qed.

(** X6. When the client-list decoder succeeds, and only then: a line is
    decoded to the record [info] exactly when it has 13 fields or more, its
    fields 5, 6, 8, 10 and 11 are base-10 integers of the range of [int],
    and [info] holds their values (the time of field 8 as seconds) and the
    fields 1, 2, 3, 4, 9 and 12 as they stand. No shorter line and no line
    with another text in an integer field gives a record. *)
Theorem client_decode_succeeds_iff (line : string) (info : ClientInfo) :
  parseClientListEntry line = Ok info <->
  (13 <= List.length (fields line))%nat /\
  intField (field line 5) (BytesReceived info) /\
  intField (field line 6) (BytesSent info) /\
  (exists n8, intField (field line 8) n8 /\
              ConnectedSince info = Time.Unix n8 0) /\
  intField (field line 10) (ClientID info) /\
  intField (field line 11) (PeerID info) /\
  Name info = field line 1 /\
  RealAddress info = field line 2 /\
  VirtualAddress info = field line 3 /\
  VirtualV6Address info = field line 4 /\
  Username info = field line 9 /\
  DataChannelCipher info = field line 12.
Proof.
  split.
  - intros H. apply parseClientListEntry_Ok_inv in H.
    destruct H as (Hlen & H5 & H6 & (n8 & H8 & Ht) & H10 & H11 & Hrest).
    apply Atoi_Ok_iff in H5, H6, H8, H10, H11.
    split; [exact Hlen|]. split; [exact H5|]. split; [exact H6|].
    split; [exists n8; split; assumption|].
    split; [exact H10|]. split; [exact H11|]. exact Hrest.
  - intros (Hlen & H5 & H6 & (n8 & H8 & Ht) & H10 & H11 & F1 & F2 & F3 & F4 & F9 & F12).
    apply Atoi_Ok_iff in H5, H6, H8, H10, H11.
    eapply parseClientListEntry_build; eauto.
Qed.

(** X7. When the routing-table decoder succeeds, and only then: a line is
    decoded to the record [info] exactly when it has 6 fields or more, its
    field 5 is a base-10 integer of the range of [int], the time of [info]
    is that number of seconds, and [info] holds the fields 1, 2 and 3 as
    they stand. *)
Theorem routing_decode_succeeds_iff (line : string) (info : RoutingInfo) :
  parseRoutingTableEntry line = Ok info <->
  (6 <= List.length (fields line))%nat /\
  (exists n5, intField (field line 5) n5 /\ RLastRef info = Time.Unix n5 0) /\
  RVirtualAddress info = field line 1 /\
  RCommonName info = field line 2 /\
  RRealAddress info = field line 3.
Proof.
  split.
  - intros H. apply parseRoutingTableEntry_Ok_inv in H.
    destruct H as (Hlen & (n5 & H5 & Ht) & Hrest).
    apply Atoi_Ok_iff in H5.
    split; [exact Hlen|]. split; [exists n5; split; assumption | exact Hrest].
  - intros (Hlen & (n5 & H5 & Ht) & F1 & F2 & F3).
    pose proof (proj2 H5) as Hr. apply Atoi_Ok_iff in H5.
    rewrite parseRoutingTableEntry_long by exact Hlen.
    rewrite H5. cbn [bind]. rewrite wrap_i64_id by exact Hr.
    destruct info; simpl in *; subst. reflexivity.
Qed.

Ltac next_index line :=
  match goal with
  | |- context [index (fields line) ?i] =>
      first [ rewrite (index_ok (fields line) i) by lia; cbn [bind];
              change (nth i (fields line) "") with (field line i)
            | rewrite (index_panic (fields line) i) by lia; cbn [bind] ]
  end.

(** X8. A line with too few fields whose integer fields, as far as they
    are there, all convert: the client-list decoder panics at the first
    index it reads beyond the fields, 5, 6, 8, 10, 11 or 12 in this order,
    and returns no error value; the routing-table decoder panics at index 5
    on every line of 5 fields or fewer, whatever they hold. *)
Theorem short_line_panics_at_first_missing_index (line : string) :
  ((List.length (fields line) < 13)%nat ->
   (forall k, In k [5; 6; 8; 10; 11]%nat -> (k < List.length (fields line))%nat ->
              exists n, Atoi (field line k) = Ok n) ->
   parseClientListEntry line =
   Panic (IndexOutOfRange (firstMissing (List.length (fields line)))
                          (List.length (fields line)))) /\
  ((List.length (fields line) < 6)%nat ->
   parseRoutingTableEntry line =
   Panic (IndexOutOfRange 5 (List.length (fields line)))).
Proof.
  split.
  - intros Hlen Hconv.
    assert (Hat : forall k, In k [5; 6; 8; 10; 11]%nat ->
              (k < List.length (fields line))%nat ->
              forall (K : Z -> result ClientInfo) r,
              (forall n, K n = r) -> bind (Atoi (field line k)) K = r).
    { intros k Hk Hlt K r HK. destruct (Hconv k Hk Hlt) as [n ->]. apply HK. }
    unfold parseClientListEntry. fold (fields line). unfold firstMissing.
    destruct (Nat.leb_spec (List.length (fields line)) 5);
      [next_index line; reflexivity|].
    next_index line. apply Hat; [simpl; tauto | lia | intros n5].
    destruct (Nat.leb_spec (List.length (fields line)) 6);
      [next_index line; reflexivity|].
    next_index line. apply Hat; [simpl; tauto | lia | intros n6].
    destruct (Nat.leb_spec (List.length (fields line)) 8);
      [next_index line; reflexivity|].
    next_index line. apply Hat; [simpl; tauto | lia | intros n8].
    destruct (Nat.leb_spec (List.length (fields line)) 10);
      [next_index line; reflexivity|].
    next_index line. apply Hat; [simpl; tauto | lia | intros n10].
    destruct (Nat.leb_spec (List.length (fields line)) 11);
      [next_index line; reflexivity|].
    next_index line. apply Hat; [simpl; tauto | lia | intros n11].
    do 5 next_index line. next_index line. reflexivity.
  - intros Hlen. apply parseRoutingTableEntry_short. lia.
Qed.

Lemma short_line_panics_at_first_missing_index_witness :
  ((List.length (fields noCipherLine) < 13)%nat /\
   (forall k, In k [5; 6; 8; 10; 11]%nat ->
              (k < List.length (fields noCipherLine))%nat ->
              exists n, Atoi (field noCipherLine k) = Ok n) /\
   (List.length (fields shortRouteLine) < 6)%nat) /\
  parseClientListEntry noCipherLine = Panic (IndexOutOfRange 12 12) /\
  parseRoutingTableEntry shortRouteLine = Panic (IndexOutOfRange 5 2).
Proof.
  assert (Hlen : (List.length (fields noCipherLine) < 13)%nat)
    by (vm_compute; lia).
  assert (Hconv : forall k, In k [5; 6; 8; 10; 11]%nat ->
            (k < List.length (fields noCipherLine))%nat ->
            exists n, Atoi (field noCipherLine k) = Ok n).
  { intros k Hk _. simpl in Hk.
    repeat (destruct Hk as [<- | Hk]; [eexists; vm_compute; reflexivity|]).
    destruct Hk. }
  assert (Hshort : (List.length (fields shortRouteLine) < 6)%nat)
    by (vm_compute; lia).
  split; [exact (conj Hlen (conj Hconv Hshort))|].
  split.
  - exact (proj1 (short_line_panics_at_first_missing_index noCipherLine) Hlen Hconv).
  - exact (proj2 (short_line_panics_at_first_missing_index shortRouteLine) Hshort).
Defined.

(** X9. The error of a decoder is the error of the first conversion that
    fails: when the fields 5, 6, 8, 10, 11 before field [k] of a
    CLIENT_LIST line convert and field [k], which is there, does not, the
    decoder returns the error [Atoi] gave for field [k], also on a line too
    short for the later fields; on a ROUTING_TABLE line of 6 fields or more
    whose field 5 does not convert the decoder returns the error of field
    5. *)
Theorem decode_error_is_first_failed_conversion (line : string) (e : error) :
  (forall k,
     In k [5; 6; 8; 10; 11]%nat ->
     (k < List.length (fields line))%nat ->
     (forall j, In j [5; 6; 8; 10; 11]%nat -> (j < k)%nat ->
                exists n, Atoi (field line j) = Ok n) ->
     Atoi (field line k) = Err e ->
     parseClientListEntry line = Err e) /\
  ((6 <= List.length (fields line))%nat ->
   Atoi (field line 5) = Err e ->
   parseRoutingTableEntry line = Err e).
Proof.
  split.
  - intros k Hk Hlen Hbefore Hbad.
    assert (Hat : forall j, In j [5; 6; 8; 10; 11]%nat -> (j < k)%nat ->
              forall (K : Z -> result ClientInfo) r,
              (forall n, K n = r) -> bind (Atoi (field line j)) K = r).
    { intros j Hj Hlt K r HK. destruct (Hbefore j Hj Hlt) as [n ->]. apply HK. }
    unfold parseClientListEntry. fold (fields line).
    simpl in Hk.
    destruct Hk as [<- | [<- | [<- | [<- | [<- | []]]]]];
      repeat (next_index line;
              first [ rewrite Hbad; reflexivity
                    | apply Hat; [simpl; tauto | lia | intros ?] ]).
  - intros Hlen Hbad.
    rewrite parseRoutingTableEntry_long by exact Hlen.
    rewrite Hbad. reflexivity.
Qed.

Lemma decode_error_is_first_failed_conversion_witness :
  ((6 < List.length (fields "CLIENT_LIST,a,b,c,d,10,x6"))%nat /\
   (forall j, In j [5; 6; 8; 10; 11]%nat -> (j < 6)%nat ->
              exists n, Atoi (field "CLIENT_LIST,a,b,c,d,10,x6" j) = Ok n) /\
   Atoi (field "CLIENT_LIST,a,b,c,d,10,x6" 6) =
     Err (ENum (mkNumError "Atoi" "x6" ErrSyntax))) /\
  parseClientListEntry "CLIENT_LIST,a,b,c,d,10,x6" =
    Err (ENum (mkNumError "Atoi" "x6" ErrSyntax)).
Proof.
  assert (Hlen : (6 < List.length (fields "CLIENT_LIST,a,b,c,d,10,x6"))%nat)
    by (vm_compute; lia).
  assert (Hb : forall j, In j [5; 6; 8; 10; 11]%nat -> (j < 6)%nat ->
            exists n, Atoi (field "CLIENT_LIST,a,b,c,d,10,x6" j) = Ok n).
  { intros j Hj Hlt. simpl in Hj.
    destruct Hj as [<- | Hj]; [eexists; vm_compute; reflexivity|].
    exfalso. lia. }
  assert (Hbad : Atoi (field "CLIENT_LIST,a,b,c,d,10,x6" 6) =
                 Err (ENum (mkNumError "Atoi" "x6" ErrSyntax)))
    by (vm_compute; reflexivity).
  split; [exact (conj Hlen (conj Hb Hbad))|].
  exact (proj1 (decode_error_is_first_failed_conversion
                  "CLIENT_LIST,a,b,c,d,10,x6" _)
           6%nat (or_intror (or_introl eq_refl)) Hlen Hb Hbad).
Defined.

(** ** The scan *)

Lemma client_marker (line : string) :
  isClientLine line = true ->
  String.eqb (marker line) "HEADER" = false /\
  String.eqb (marker line) "END" = false /\
  isRouteLine line = false.
Proof.
  intros H. unfold isClientLine in H. apply String.eqb_eq in H.
  destruct (marker_cases line _ H) as (-> & -> & _ & ->). auto.
Qed.

Lemma route_marker (line : string) :
  isRouteLine line = true ->
  String.eqb (marker line) "HEADER" = false /\
  String.eqb (marker line) "END" = false /\
  isClientLine line = false.
Proof.
  intros H. unfold isRouteLine in H. apply String.eqb_eq in H.
  destruct (marker_cases line _ H) as (-> & -> & -> & _). auto.
Qed.

Lemma scanLines_client (line : string) (rest : list string)
    (clients : list ClientInfo) (routes : list RoutingInfo) :
  isClientLine line = true ->
  scanLines (line :: rest) clients routes =
  (info <- parseClientListEntry line ;; scanLines rest (clients ++ [info]) routes).
Proof.
  intros H. rewrite scanLines_cons.
  destruct (client_marker line H) as (-> & -> & _). now rewrite H.
Qed.

Lemma scanLines_route (line : string) (rest : list string)
    (clients : list ClientInfo) (routes : list RoutingInfo) :
  isRouteLine line = true ->
  scanLines (line :: rest) clients routes =
  (info <- parseRoutingTableEntry line ;; scanLines rest clients (routes ++ [info])).
Proof.
  intros H. rewrite scanLines_cons.
  destruct (route_marker line H) as (-> & -> & ->). now rewrite H.
Qed.

Lemma scanLines_other (line : string) (rest : list string)
    (clients : list ClientInfo) (routes : list RoutingInfo) :
  isClientLine line = false ->
  isRouteLine line = false ->
  scanLines (line :: rest) clients routes = scanLines rest clients routes.
Proof.
  intros HC HR. rewrite scanLines_cons, HC, HR.
  destruct (String.eqb (marker line) "HEADER"); [reflexivity|].
  destruct (String.eqb (marker line) "END"); reflexivity.
Qed.

(** The kind of a line: a client entry, a routing entry, or neither. *)
Lemma line_kind (line : string) :
  (isClientLine line = true /\ isRouteLine line = false) \/
  (isClientLine line = false /\ isRouteLine line = true) \/
  (isClientLine line = false /\ isRouteLine line = false).
Proof.
  destruct (isClientLine line) eqn:EC.
  - left. split; [reflexivity|]. now apply client_marker.
  - destruct (isRouteLine line); auto.
Qed.

(** X3. Which lines the loop hands to which decoder. On a line that is
    CLIENT_LIST, or starts with CLIENT_LIST and a comma, the loop calls the
    client-list decoder, returns at once what it returns when that is an
    error or a panic, and otherwise goes on with the record appended to the
    clients; on a line that is ROUTING_TABLE, or starts with ROUTING_TABLE
    and a comma, it does the same with the routing-table decoder and the
    routes; on every other line it calls no decoder and goes on with both
    slices as they are. Nothing is trimmed and the case matters. *)
Theorem record_lines_by_prefix (line : string) (rest : list string)
    (clients : list ClientInfo) (routes : list RoutingInfo) :
  ((line = "CLIENT_LIST" \/ exists tail, line = "CLIENT_LIST," ++ tail) ->
   scanLines (line :: rest) clients routes =
   match parseClientListEntry line with
   | Ok info => scanLines rest (clients ++ [info]) routes
   | Err e => Err e
   | Panic p => Panic p
   end) /\
  ((line = "ROUTING_TABLE" \/ exists tail, line = "ROUTING_TABLE," ++ tail) ->
   scanLines (line :: rest) clients routes =
   match parseRoutingTableEntry line with
   | Ok info => scanLines rest clients (routes ++ [info])
   | Err e => Err e
   | Panic p => Panic p
   end) /\
  (~ (line = "CLIENT_LIST" \/ exists tail, line = "CLIENT_LIST," ++ tail) ->
   ~ (line = "ROUTING_TABLE" \/ exists tail, line = "ROUTING_TABLE," ++ tail) ->
   scanLines (line :: rest) clients routes = scanLines rest clients routes).
Proof.
  assert (HC : isClientLine line = true <->
               (line = "CLIENT_LIST" \/ exists tail, line = "CLIENT_LIST," ++ tail)).
  { unfold isClientLine. rewrite String.eqb_eq.
    rewrite (marker_iff line "CLIENT_LIST") by reflexivity.
    split; (intros [H | [tail H]]; [left; exact H | right; exists tail]);
      rewrite H; reflexivity. }
  assert (HR : isRouteLine line = true <->
               (line = "ROUTING_TABLE" \/ exists tail, line = "ROUTING_TABLE," ++ tail)).
  { unfold isRouteLine. rewrite String.eqb_eq.
    rewrite (marker_iff line "ROUTING_TABLE") by reflexivity.
    split; (intros [H | [tail H]]; [left; exact H | right; exists tail]);
      rewrite H; reflexivity. }
  split; [|split].
  - intros H. apply HC in H. rewrite scanLines_client by exact H.
    destruct (parseClientListEntry line); reflexivity.
  - intros H. apply HR in H. rewrite scanLines_route by exact H.
    destruct (parseRoutingTableEntry line); reflexivity.
  - intros HnC HnR. apply scanLines_other.
    + destruct (isClientLine line) eqn:E; [|reflexivity].
      exfalso. apply HnC, HC. reflexivity.
    + destruct (isRouteLine line) eqn:E; [|reflexivity].
      exfalso. apply HnR, HR. reflexivity.
Qed.

Lemma record_lines_by_prefix_witness :
  ((aliceLine = "CLIENT_LIST" \/ exists tail, aliceLine = "CLIENT_LIST," ++ tail) /\
   (aliceRoute = "ROUTING_TABLE" \/
    exists tail, aliceRoute = "ROUTING_TABLE," ++ tail) /\
   ~ (" CLIENT_LIST,alice" = "CLIENT_LIST" \/
      exists tail, " CLIENT_LIST,alice" = "CLIENT_LIST," ++ tail) /\
   ~ (" CLIENT_LIST,alice" = "ROUTING_TABLE" \/
      exists tail, " CLIENT_LIST,alice" = "ROUTING_TABLE," ++ tail)) /\
  scanLines [aliceLine] [] [] = Ok ([aliceRecord], []) /\
  scanLines [aliceRoute] [] [] = Ok ([], [aliceRouteRecord]) /\
  scanLines [" CLIENT_LIST,alice"; aliceLine] [] [] = scanLines [aliceLine] [] [].
Proof.
  assert (Hc : aliceLine = "CLIENT_LIST" \/
               exists tail, aliceLine = "CLIENT_LIST," ++ tail)
    by (right; eexists; reflexivity).
  assert (Hr : aliceRoute = "ROUTING_TABLE" \/
               exists tail, aliceRoute = "ROUTING_TABLE," ++ tail)
    by (right; eexists; reflexivity).
  assert (Hn1 : ~ (" CLIENT_LIST,alice" = "CLIENT_LIST" \/
                   exists tail, " CLIENT_LIST,alice" = "CLIENT_LIST," ++ tail))
    by (intros [H | [tail H]]; discriminate).
  assert (Hn2 : ~ (" CLIENT_LIST,alice" = "ROUTING_TABLE" \/
                   exists tail, " CLIENT_LIST,alice" = "ROUTING_TABLE," ++ tail))
    by (intros [H | [tail H]]; discriminate).
  split; [exact (conj Hc (conj Hr (conj Hn1 Hn2)))|].
  split.
  { exact (proj1 (record_lines_by_prefix aliceLine [] [] []) Hc). }
  split.
  { exact (proj1 (proj2 (record_lines_by_prefix aliceRoute [] [] [])) Hr). }
  exact (proj2 (proj2 (record_lines_by_prefix " CLIENT_LIST,alice" [aliceLine] [] []))
           Hn1 Hn2).
Defined.

Lemma scanLines_build (lines : list string) :
  forall clients routes cs rs,
  Forall2 (fun l c => parseClientListEntry l = Ok c)
          (filter isClientLine lines) cs ->
  Forall2 (fun l r => parseRoutingTableEntry l = Ok r)
          (filter isRouteLine lines) rs ->
  scanLines lines clients routes = Ok ((clients ++ cs)%list, (routes ++ rs)%list).
Proof.
  induction lines as [|line lines IH]; intros c0 r0 cs rs Hc Hr.
  - simpl in *. inversion Hc; inversion Hr; subst. now rewrite !app_nil_r.
  - simpl filter in Hc, Hr.
    destruct (line_kind line) as [[EC ER] | [[EC ER] | [EC ER]]];
      rewrite EC in Hc; rewrite ER in Hr.
    + inversion Hc as [|? c ? cs' Hline Hcs]; subst.
      rewrite scanLines_client, Hline by exact EC. cbn [bind].
      rewrite (IH _ _ cs' rs Hcs Hr), <- app_assoc. reflexivity.
    + inversion Hr as [|? r ? rs' Hline Hrs]; subst.
      rewrite scanLines_route, Hline by exact ER. cbn [bind].
      rewrite (IH _ _ cs rs' Hc Hrs), <- app_assoc. reflexivity.
    + rewrite scanLines_other by assumption. now apply IH.
Qed.

(** X10. The scan succeeds exactly when every CLIENT_LIST line and every
    ROUTING_TABLE line of the file is decoded without failure, and what it
    returns is then nothing but their records: the records of the
    CLIENT_LIST lines in the order of the lines, and those of the
    ROUTING_TABLE lines in theirs. *)
Theorem scan_succeeds_iff (lines : list string)
    (cs : list ClientInfo) (rs : list RoutingInfo) :
  ParseStatusFile (inr lines) = Ok (cs, rs) <->
  Forall2 (fun l c => parseClientListEntry l = Ok c)
          (filter isClientLine lines) cs /\
  Forall2 (fun l r => parseRoutingTableEntry l = Ok r)
          (filter isRouteLine lines) rs.
Proof.
  unfold ParseStatusFile. split.
  - intros H. apply scanLines_Ok in H.
    destruct H as (cs' & rs' & -> & -> & Hc & Hr). auto.
  - intros [Hc Hr]. exact (scanLines_build lines [] [] cs rs Hc Hr).
Qed.

Lemma scanLines_failure (lines : list string) :
  forall clients routes r,
  scanLines lines clients routes = r ->
  (forall st, r <> Ok st) ->
  exists pre line post st,
    lines = (pre ++ line :: post)%list /\
    scanLines pre clients routes = Ok st /\
    lineFailure line = Some r.
Proof.
  induction lines as [|line lines IH]; intros c0 r0 r H Hfail.
  - simpl in H. subst r. exfalso. exact (Hfail _ eq_refl).
  - assert (Hnext : forall c1 r1,
              scanLines (line :: lines) c0 r0 = scanLines lines c1 r1 ->
              scanLines [line] c0 r0 = Ok (c1, r1) ->
              exists pre l post st,
                (line :: lines) = (pre ++ l :: post)%list /\
                scanLines pre c0 r0 = Ok st /\ lineFailure l = Some r).
    { intros c1 r1 Hstep Hone.
      rewrite Hstep in H.
      destruct (IH c1 r1 r H Hfail) as (pre & l & post & st & -> & Hpre & Hl).
      exists (line :: pre), l, post, st. split; [reflexivity|]. split; [|exact Hl].
      change (line :: pre) with ([line] ++ pre)%list.
      rewrite scanLines_app, Hone. exact Hpre. }
    destruct (line_kind line) as [[EC ER] | [[EC ER] | [EC ER]]].
    + destruct (parseClientListEntry line) as [info | e | p] eqn:Hd.
      * apply (Hnext (c0 ++ [info])%list r0);
          rewrite !scanLines_client, Hd by exact EC; reflexivity.
      * exists [], line, lines, (c0, r0). split; [reflexivity|].
        split; [reflexivity|].
        rewrite scanLines_client, Hd in H by exact EC. cbn [bind] in H.
        unfold lineFailure. rewrite EC, Hd. simpl. now subst r.
      * exists [], line, lines, (c0, r0). split; [reflexivity|].
        split; [reflexivity|].
        rewrite scanLines_client, Hd in H by exact EC. cbn [bind] in H.
        unfold lineFailure. rewrite EC, Hd. simpl. now subst r.
    + destruct (parseRoutingTableEntry line) as [info | e | p] eqn:Hd.
      * apply (Hnext c0 (r0 ++ [info])%list);
          rewrite !scanLines_route, Hd by exact ER; reflexivity.
      * exists [], line, lines, (c0, r0). split; [reflexivity|].
        split; [reflexivity|].
        rewrite scanLines_route, Hd in H by exact ER. cbn [bind] in H.
        unfold lineFailure. rewrite EC, ER, Hd. simpl. now subst r.
      * exists [], line, lines, (c0, r0). split; [reflexivity|].
        split; [reflexivity|].
        rewrite scanLines_route, Hd in H by exact ER. cbn [bind] in H.
        unfold lineFailure. rewrite EC, ER, Hd. simpl. now subst r.
    + apply (Hnext c0 r0); rewrite !scanLines_other by assumption; reflexivity.
Qed.

(** X11. A scan that fails fails at its first bad line, with the failure
    of that line: when [ParseStatusFile] returns an error, or panics, the
    file is some lines that scan without failure, then a CLIENT_LIST or
    ROUTING_TABLE line whose decoder returns this very error, or panics
    with this very panic, then the rest. *)
Theorem scan_fails_at_first_bad_line (lines : list string)
    (r : result (list ClientInfo * list RoutingInfo)) :
  ParseStatusFile (inr lines) = r ->
  (forall st, r <> Ok st) ->
  exists pre line post st,
    lines = (pre ++ line :: post)%list /\
    ParseStatusFile (inr pre) = Ok st /\
    ((isClientLine line = true /\
      failureOf (parseClientListEntry line) = Some r) \/
     (isRouteLine line = true /\
      failureOf (parseRoutingTableEntry line) = Some r)).
Proof.
  unfold ParseStatusFile. intros H Hfail.
  destruct (scanLines_failure lines [] [] r H Hfail)
    as (pre & line & post & st & Hl & Hpre & Hf).
  exists pre, line, post, st. split; [exact Hl|]. split; [exact Hpre|].
  unfold lineFailure in Hf.
  destruct (isClientLine line); [left; auto|].
  destruct (isRouteLine line); [right; auto | discriminate].
Qed.

Lemma scan_fails_at_first_bad_line_witness :
  (ParseStatusFile (inr [aliceLine; malformedLine; shortClientLine]) =
     Err (ENum (mkNumError "Atoi" "many" ErrSyntax)) /\
   forall st, Err (ENum (mkNumError "Atoi" "many" ErrSyntax))
              <> @Ok (list ClientInfo * list RoutingInfo) st) /\
  exists pre line post st,
    [aliceLine; malformedLine; shortClientLine] = (pre ++ line :: post)%list /\
    ParseStatusFile (inr pre) = Ok st /\
    ((isClientLine line = true /\
      failureOf (parseClientListEntry line) =
        Some (@Err (list ClientInfo * list RoutingInfo)
                (ENum (mkNumError "Atoi" "many" ErrSyntax)))) \/
     (isRouteLine line = true /\
      failureOf (parseRoutingTableEntry line) =
        Some (@Err (list ClientInfo * list RoutingInfo)
                (ENum (mkNumError "Atoi" "many" ErrSyntax))))).
Proof.
  assert (H : ParseStatusFile (inr [aliceLine; malformedLine; shortClientLine]) =
              Err (ENum (mkNumError "Atoi" "many" ErrSyntax)))
    by (vm_compute; reflexivity).
  assert (Hf : forall st, Err (ENum (mkNumError "Atoi" "many" ErrSyntax))
                          <> @Ok (list ClientInfo * list RoutingInfo) st)
    by (intros st; discriminate).
  split; [exact (conj H Hf)|].
  exact (scan_fails_at_first_bad_line _ _ H Hf).
Defined.

(** X12. Nothing is read after a failure: when the scan of some lines
    returns an error or panics, the scan of these lines followed by any
    others returns the same error, or panics the same way. *)
Theorem scan_failure_ignores_rest (pre post : list string)
    (r : result (list ClientInfo * list RoutingInfo)) :
  ParseStatusFile (inr pre) = r ->
  (forall st, r <> Ok st) ->
  ParseStatusFile (inr (pre ++ post)%list) = r.
Proof.
  unfold ParseStatusFile. intros H Hfail.
  rewrite scanLines_app, H.
  destruct r as [st | e | p]; [exfalso; exact (Hfail st eq_refl) | reflexivity..].
Qed.

Lemma scan_failure_ignores_rest_witness :
  (ParseStatusFile (inr [aliceLine; shortRouteLine]) =
     Panic (IndexOutOfRange 5 2) /\
   forall st, Panic (IndexOutOfRange 5 2)
              <> @Ok (list ClientInfo * list RoutingInfo) st) /\
  ParseStatusFile (inr ([aliceLine; shortRouteLine] ++ [bobLine; "END"])%list) =
    Panic (IndexOutOfRange 5 2).
Proof.
  assert (H : ParseStatusFile (inr [aliceLine; shortRouteLine]) =
              Panic (IndexOutOfRange 5 2))
    by (vm_compute; reflexivity).
  assert (Hf : forall st, Panic (IndexOutOfRange 5 2)
                          <> @Ok (list ClientInfo * list RoutingInfo) st)
    by (intros st; discriminate).
  split; [exact (conj H Hf)|].
  exact (scan_failure_ignores_rest _ [bobLine; "END"] _ H Hf).
Defined.

(** X13. Scanning two files one after the other: the scan of the lines of
    one file followed by those of another succeeds exactly when the scans
    of both succeed, and its client and routing sequences are those of the
    first followed by those of the second. *)
Theorem scan_of_appended_files (a b : list string)
    (cs : list ClientInfo) (rs : list RoutingInfo) :
  ParseStatusFile (inr (a ++ b)%list) = Ok (cs, rs) <->
  exists c1 r1 c2 r2,
    ParseStatusFile (inr a) = Ok (c1, r1) /\
    ParseStatusFile (inr b) = Ok (c2, r2) /\
    cs = (c1 ++ c2)%list /\ rs = (r1 ++ r2)%list.
Proof.
  unfold ParseStatusFile. rewrite scanLines_app. split.
  - intros H. apply bind_Ok_inv in H. destruct H as ([c1 r1] & Ha & Hb).
    simpl in Hb. apply scanLines_Ok in Hb.
    destruct Hb as (c2 & r2 & -> & -> & Hc & Hr).
    exists c1, r1, c2, r2. split; [exact Ha|]. split; [|auto].
    exact (scanLines_build b [] [] c2 r2 Hc Hr).
  - intros (c1 & r1 & c2 & r2 & Ha & Hb & -> & ->).
    rewrite Ha. cbn [bind fst snd].
    apply scanLines_Ok in Hb.
    destruct Hb as (c2' & r2' & E1 & E2 & Hc & Hr). simpl in E1, E2. subst.
    now apply scanLines_build.
Qed.

(** X14. The two sequences do not depend on how the two kinds of lines are
    interleaved: a CLIENT_LIST line and the ROUTING_TABLE line that follows
    it, both decoded without failure, can change places without changing
    what [ParseStatusFile] returns. *)
Theorem client_and_route_lines_commute (pre post : list string)
    (c r : string) (ci : ClientInfo) (ri : RoutingInfo) :
  isClientLine c = true ->
  isRouteLine r = true ->
  parseClientListEntry c = Ok ci ->
  parseRoutingTableEntry r = Ok ri ->
  ParseStatusFile (inr (pre ++ c :: r :: post)%list) =
  ParseStatusFile (inr (pre ++ r :: c :: post)%list).
Proof.
  intros Hc Hr Hci Hri. unfold ParseStatusFile.
  rewrite !scanLines_app.
  destruct (scanLines pre [] []) as [[cs rs] | e | p]; [|reflexivity..].
  cbn [bind fst snd].
  rewrite (scanLines_client c), Hci by exact Hc. cbn [bind].
  rewrite (scanLines_route r), Hri by exact Hr. cbn [bind].
  rewrite (scanLines_route r), Hri by exact Hr. cbn [bind].
  rewrite (scanLines_client c), Hci by exact Hc. reflexivity.
Qed.

Lemma client_and_route_lines_commute_witness :
  (isClientLine aliceLine = true /\
   isRouteLine aliceRoute = true /\
   parseClientListEntry aliceLine = Ok aliceRecord /\
   parseRoutingTableEntry aliceRoute = Ok aliceRouteRecord) /\
  ParseStatusFile (inr ([headerLine] ++ aliceLine :: aliceRoute :: [bobLine])%list) =
  ParseStatusFile (inr ([headerLine] ++ aliceRoute :: aliceLine :: [bobLine])%list).
Proof.
  assert (Hc : isClientLine aliceLine = true) by reflexivity.
  assert (Hr : isRouteLine aliceRoute = true) by reflexivity.
  assert (Hci : parseClientListEntry aliceLine = Ok aliceRecord)
    by (vm_compute; reflexivity).
  assert (Hri : parseRoutingTableEntry aliceRoute = Ok aliceRouteRecord)
    by (vm_compute; reflexivity).
  split; [exact (conj Hc (conj Hr (conj Hci Hri)))|].
  exact (client_and_route_lines_commute [headerLine] [bobLine]
           aliceLine aliceRoute aliceRecord aliceRouteRecord Hc Hr Hci Hri).
Defined.

Lemma parseClientListEntry_long_returns (line : string) :
  (13 <= List.length (fields line))%nat ->
  forall p, parseClientListEntry line <> Panic p.
Proof.
  intros Hlen p. rewrite parseClientListEntry_long by exact Hlen.
  destruct (Atoi_returns (field line 5)) as [[? ->] | [? ->]]; [|discriminate].
  destruct (Atoi_returns (field line 6)) as [[? ->] | [? ->]]; [|discriminate].
  destruct (Atoi_returns (field line 8)) as [[? ->] | [? ->]]; [|discriminate].
  destruct (Atoi_returns (field line 10)) as [[? ->] | [? ->]]; [|discriminate].
  destruct (Atoi_returns (field line 11)) as [[? ->] | [? ->]]; discriminate.
Qed.

Lemma parseRoutingTableEntry_long_returns (line : string) :
  (6 <= List.length (fields line))%nat ->
  forall p, parseRoutingTableEntry line <> Panic p.
Proof.
  intros Hlen p. rewrite parseRoutingTableEntry_long by exact Hlen.
  destruct (Atoi_returns (field line 5)) as [[? ->] | [? ->]]; discriminate.
Qed.

Lemma parseClientListEntry_Err_Atoi (line : string) (e : error) :
  parseClientListEntry line = Err e ->
  exists s kind, e = ENum (mkNumError "Atoi" s kind).
Proof.
  intros E. unfold parseClientListEntry in E. decode_error E.
Qed.

Lemma parseRoutingTableEntry_Err_Atoi (line : string) (e : error) :
  parseRoutingTableEntry line = Err e ->
  exists s kind, e = ENum (mkNumError "Atoi" s kind).
Proof.
  intros E. unfold parseRoutingTableEntry in E. decode_error E.
Qed.

Lemma failureOf_Err {A B : Type} (x : result A) (e : error) :
  failureOf x = Some (@Err B e) -> x = Err e.
Proof.
  destruct x; simpl; intros H; inversion H; reflexivity.
Qed.

Lemma failureOf_Panic {A B : Type} (x : result A) (p : runtimeError) :
  failureOf x = Some (@Panic B p) -> x = Panic p.
Proof.
  destruct x; simpl; intros H; inversion H; reflexivity.
Qed.

Lemma scan_failure_cases (lines : list string)
    (r : result (list ClientInfo * list RoutingInfo)) :
  ParseStatusFile (inr lines) = r ->
  (forall st, r <> Ok st) ->
  exists line,
    In line lines /\
    ((isClientLine line = true /\
      failureOf (parseClientListEntry line) = Some r) \/
     (isRouteLine line = true /\
      failureOf (parseRoutingTableEntry line) = Some r)).
Proof.
  unfold ParseStatusFile. intros H Hfail.
  destruct (scanLines_failure lines [] [] r H Hfail)
    as (pre & line & post & st & Hl & _ & Hf).
  exists line. split; [rewrite Hl; apply in_elt|].
  unfold lineFailure in Hf.
  destruct (isClientLine line); [left; auto|].
  destruct (isRouteLine line); [right; auto | discriminate].
Qed.

(** X15. [ParseStatusFile] returns, with its two sequences or with an
    error of [Atoi], and does not panic, on every file whose CLIENT_LIST
    lines all have 13 fields or more and whose ROUTING_TABLE lines all
    have 6 or more; the other lines may be anything. *)
Theorem scan_returns_on_full_lines (lines : list string) :
  (forall l, In l lines -> isClientLine l = true ->
             (13 <= List.length (fields l))%nat) ->
  (forall l, In l lines -> isRouteLine l = true ->
             (6 <= List.length (fields l))%nat) ->
  (exists cs rs, ParseStatusFile (inr lines) = Ok (cs, rs)) \/
  (exists s kind,
     ParseStatusFile (inr lines) = Err (ENum (mkNumError "Atoi" s kind))).
Proof.
  intros Hc Hr.
  destruct (ParseStatusFile (inr lines)) as [[cs rs] | e | p] eqn:H.
  - left; eauto.
  - right.
    destruct (scan_failure_cases lines (Err e) H ltac:(discriminate))
      as (line & _ & [[_ Hf] | [_ Hf]]); apply failureOf_Err in Hf.
    + destruct (parseClientListEntry_Err_Atoi line e Hf) as (s & kind & ->). eauto.
    + destruct (parseRoutingTableEntry_Err_Atoi line e Hf) as (s & kind & ->). eauto.
  - exfalso.
    destruct (scan_failure_cases lines (Panic p) H ltac:(discriminate))
      as (line & Hin & [[EC Hf] | [ER Hf]]); apply failureOf_Panic in Hf.
    + exact (parseClientListEntry_long_returns line (Hc line Hin EC) p Hf).
    + exact (parseRoutingTableEntry_long_returns line (Hr line Hin ER) p Hf).
Qed.

Lemma scan_returns_on_full_lines_witness :
  ((forall l, In l [headerLine; aliceLine; malformedLine; ""] ->
              isClientLine l = true -> (13 <= List.length (fields l))%nat) /\
   (forall l, In l [headerLine; aliceLine; malformedLine; ""] ->
              isRouteLine l = true -> (6 <= List.length (fields l))%nat)) /\
  ((exists cs rs,
      ParseStatusFile (inr [headerLine; aliceLine; malformedLine; ""]) =
      Ok (cs, rs)) \/
   (exists s kind,
      ParseStatusFile (inr [headerLine; aliceLine; malformedLine; ""]) =
      Err (ENum (mkNumError "Atoi" s kind)))).
Proof.
  assert (Hc : forall l, In l [headerLine; aliceLine; malformedLine; ""] ->
                 isClientLine l = true -> (13 <= List.length (fields l))%nat).
  { intros l Hl. simpl in Hl.
    repeat (destruct Hl as [<- | Hl]; [vm_compute; intros; try discriminate; lia|]).
    destruct Hl. }
  assert (Hr : forall l, In l [headerLine; aliceLine; malformedLine; ""] ->
                 isRouteLine l = true -> (6 <= List.length (fields l))%nat).
  { intros l Hl. simpl in Hl.
    repeat (destruct Hl as [<- | Hl]; [vm_compute; intros; try discriminate; lia|]).
    destruct Hl. }
  split; [exact (conj Hc Hr)|].
  exact (scan_returns_on_full_lines _ Hc Hr).
Defined.

(** ** The file, through bufio.Scanner *)

Lemma append_assoc (a b c : string) : ((a ++ b) ++ c = a ++ (b ++ c))%string.
Proof.
  induction a as [|x a IH]; simpl; [reflexivity | now rewrite IH].
Qed.

Lemma length_append (a b : string) :
  String.length (a ++ b) = (String.length a + String.length b)%nat.
Proof.
  induction a as [|x a IH]; simpl; [reflexivity | now rewrite IH].
Qed.

Lemma Count_append (a b : string) (c : ascii) :
  Count (a ++ b) c = (Count a c + Count b c)%nat.
Proof.
  induction a as [|x a IH]; simpl; [reflexivity | rewrite IH; lia].
Qed.

Lemma rawLines_line (l rest : string) :
  Count l "010" = 0%nat ->
  Bufio.rawLines (l ++ String "010" rest) = l :: Bufio.rawLines rest.
Proof.
  induction l as [|c l IH]; simpl; intros H; [reflexivity|].
  destruct (Ascii.eqb c "010"); [discriminate|].
  simpl in H. now rewrite IH.
Qed.

(** The line that starts the data reaches at least to the first newline. *)
Lemma rawLines_first (long rest : string) :
  Count long "010" = 0%nat ->
  long <> EmptyString ->
  exists more tail, Bufio.rawLines (long ++ rest) = (long ++ more)%string :: tail.
Proof.
  induction long as [|c l IH]; intros Hc Hne; [congruence|].
  simpl in Hc. simpl. destruct (Ascii.eqb c "010"); [discriminate|].
  simpl in Hc. destruct l as [|c' l'].
  - simpl. destruct (Bufio.rawLines rest) as [|m tail]; eauto.
  - destruct (IH Hc ltac:(discriminate)) as (more & tail & ->). eauto.
Qed.

Lemma rawLines_unlines (eol : string) (lines : list string) (tail : string) :
  Forall (fun l => Count (l ++ eol) "010" = 0%nat) lines ->
  Bufio.rawLines (unlines (eol ++ LF) lines ++ tail) =
  (map (fun l => (l ++ eol)%string) lines ++ Bufio.rawLines tail)%list.
Proof.
  induction lines as [|l ls IH]; intros H; [reflexivity|].
  inversion H as [|? ? Hl Hls]; subst.
  simpl unlines.
  replace ((l ++ (eol ++ LF) ++ unlines (eol ++ LF) ls) ++ tail)%string
    with ((l ++ eol) ++ String "010" (unlines (eol ++ LF) ls ++ tail))%string.
  - rewrite rawLines_line by exact Hl. simpl. now rewrite IH.
  - unfold LF. rewrite !append_assoc. reflexivity.
Qed.

Lemma dropCR_CR (l : string) : Bufio.dropCR (l ++ String "013" EmptyString) = l.
Proof.
  induction l as [|c l IH]; [reflexivity|].
  simpl append. destruct l as [|c' l'].
  - reflexivity.
  - simpl in *. now rewrite IH.
Qed.

Lemma deliver_all (maxTokenSize : Z) (raw : list string) :
  Forall (fun l => Z.of_nat (String.length l) < maxTokenSize) raw ->
  Bufio.deliver maxTokenSize raw = map Bufio.dropCR raw.
Proof.
  induction raw as [|l ls IH]; intros H; [reflexivity|].
  inversion H as [|? ? Hl Hls]; subst. simpl.
  apply Z.ltb_lt in Hl. now rewrite Hl, IH.
Qed.

Lemma deliver_cut (maxTokenSize : Z) (raw tail : list string) (long : string) :
  maxTokenSize <= Z.of_nat (String.length long) ->
  Bufio.deliver maxTokenSize (raw ++ long :: tail) =
  Bufio.deliver maxTokenSize raw.
Proof.
  intros Hlong. induction raw as [|l ls IH]; simpl.
  - apply Z.ltb_ge in Hlong. now rewrite Hlong.
  - destruct (Z.of_nat (String.length l) <? maxTokenSize); [now rewrite IH | reflexivity].
Qed.

Lemma map_id_on {A : Type} (f : A -> A) (l : list A) :
  Forall (fun x => f x = x) l -> map f l = l.
Proof.
  induction 1; simpl; congruence.
Qed.

(** X16. The lines the scan sees are the lines of the file, whatever the
    line ends: for lines without a newline in them and without a final
    carriage return, each shorter than 65535 bytes, the file with a newline
    after each line and the file with a carriage return and a newline after
    each line are both read as these very lines, and a last line without a
    newline is read as well; so [ParseStatusFile] returns the same for the
    two files. *)
Theorem file_lines_roundtrip (lines : list string) :
  Forall plainLine lines ->
  Forall (fun l => Z.of_nat (String.length l) + 1 < Bufio.MaxScanTokenSize) lines ->
  Bufio.Lines (unlines LF lines) = lines /\
  Bufio.Lines (unlines CRLF lines) = lines /\
  (forall last,
     plainLine last -> last <> EmptyString ->
     Z.of_nat (String.length last) + 1 < Bufio.MaxScanTokenSize ->
     Bufio.Lines (unlines LF lines ++ last) = (lines ++ [last])%list) /\
  parseBytes (unlines CRLF lines) = parseBytes (unlines LF lines).
Proof.
  intros Hplain Hshort.
  assert (Hlf : forall tail,
            Bufio.rawLines (unlines LF lines ++ tail) =
            (lines ++ Bufio.rawLines tail)%list).
  { intros tail.
    pose proof (rawLines_unlines EmptyString lines tail) as H.
    simpl in H. fold LF in H.
    rewrite H.
    - f_equal. apply map_id_on.
      clear. induction lines; constructor; auto.
      clear. induction a; simpl; congruence.
    - clear -Hplain. induction Hplain as [|l ls [Hl _] _ IH]; constructor; auto.
      rewrite Count_append. simpl. lia. }
  assert (Hcrlf : Bufio.rawLines (unlines CRLF lines) =
                  map (fun l => (l ++ String "013" EmptyString)%string) lines).
  { pose proof (rawLines_unlines (String "013" EmptyString) lines EmptyString) as H.
    assert (E : forall d, (d ++ EmptyString)%string = d)
      by (induction d; simpl; congruence).
    rewrite E in H. simpl in H. rewrite app_nil_r in H. apply H.
    clear -Hplain. induction Hplain as [|l ls [Hl _] _ IH]; constructor; auto.
    rewrite Count_append. simpl. lia. }
  assert (Happ0 : forall d, (d ++ EmptyString)%string = d)
    by (induction d; simpl; congruence).
  assert (L1 : Bufio.Lines (unlines LF lines) = lines).
  { unfold Bufio.Lines. rewrite <- (Happ0 (unlines LF lines)), Hlf.
    simpl. rewrite app_nil_r.
    rewrite deliver_all.
    - apply map_id_on. clear -Hplain.
      induction Hplain as [|l ls [_ Hl] _ IH]; constructor; auto.
    - clear -Hshort. induction Hshort; constructor; auto. lia. }
  assert (L2 : Bufio.Lines (unlines CRLF lines) = lines).
  { unfold Bufio.Lines. rewrite Hcrlf, deliver_all.
    - rewrite map_map. clear. induction lines; simpl; [reflexivity|].
      now rewrite dropCR_CR, IHlines.
    - clear -Hshort. induction Hshort as [|l ls Hl _ IH]; constructor; auto.
      rewrite length_append. simpl. lia. }
  split; [exact L1|]. split; [exact L2|]. split.
  - intros last [Hn Hd] Hne Hlen.
    unfold Bufio.Lines. rewrite Hlf.
    destruct (rawLines_first last EmptyString Hn Hne) as (more & tail & Hr).
    assert (Hlast : Bufio.rawLines last = [last]).
    { clear -Hn Hne. induction last as [|c l IH]; [congruence|].
      simpl in *. destruct (Ascii.eqb c "010"); [discriminate|].
      simpl in Hn. destruct l as [|c' l']; [reflexivity|].
      now rewrite IH by (auto; discriminate). }
    rewrite Hlast, deliver_all.
    + rewrite map_app. simpl. rewrite Hd. f_equal.
      apply map_id_on. clear -Hplain.
      induction Hplain as [|l ls [_ Hl] _ IH]; constructor; auto.
    + apply Forall_app. split.
      * clear -Hshort. induction Hshort; constructor; auto. lia.
      * constructor; [lia | constructor].
  - unfold parseBytes. now rewrite L1, L2.
Qed.

Lemma file_lines_roundtrip_witness :
  (Forall plainLine [headerLine; aliceLine; aliceRoute] /\
   Forall (fun l => Z.of_nat (String.length l) + 1 < Bufio.MaxScanTokenSize)
          [headerLine; aliceLine; aliceRoute]) /\
  Bufio.Lines (unlines CRLF [headerLine; aliceLine; aliceRoute]) =
    [headerLine; aliceLine; aliceRoute] /\
  parseBytes (unlines CRLF [headerLine; aliceLine; aliceRoute]) =
  parseBytes (unlines LF [headerLine; aliceLine; aliceRoute]).
Proof.
  assert (Hp : Forall plainLine [headerLine; aliceLine; aliceRoute])
    by (repeat constructor).
  assert (Hs : Forall (fun l => Z.of_nat (String.length l) + 1
                                < Bufio.MaxScanTokenSize)
                      [headerLine; aliceLine; aliceRoute])
    by (repeat constructor).
  split; [exact (conj Hp Hs)|].
  pose proof (file_lines_roundtrip [headerLine; aliceLine; aliceRoute] Hp Hs) as W.
  exact (conj (proj1 (proj2 W)) (proj2 (proj2 (proj2 W)))).
Defined.

(** X17. A line too long for the scanner ends the scan without a word: when
    the file holds, after some lines, a line of 65536 bytes or more, [Scan]
    gives up there, and [ParseStatusFile], which never asks the scanner for
    its error, returns what the lines before give, without error when they
    are decoded without failure; the long line and all that follows it are
    not read. *)
Theorem overlong_line_ends_scan_silently
    (before : list string) (long rest : string) :
  Forall (fun l => Count l "010" = 0%nat) before ->
  Count long "010" = 0%nat ->
  Bufio.MaxScanTokenSize <= Z.of_nat (String.length long) ->
  Bufio.Lines (unlines LF before ++ long ++ rest) =
  Bufio.Lines (unlines LF before) /\
  parseBytes (unlines LF before ++ long ++ rest) =
  parseBytes (unlines LF before).
Proof.
  intros Hb Hn Hlen.
  assert (Hraw : forall tail,
            Bufio.rawLines (unlines LF before ++ tail) =
            (before ++ Bufio.rawLines tail)%list).
  { intros tail.
    pose proof (rawLines_unlines EmptyString before tail) as H.
    simpl in H. fold LF in H. rewrite H.
    - f_equal. apply map_id_on.
      clear. induction before; constructor; auto.
      clear. induction a; simpl; congruence.
    - clear -Hb. induction Hb as [|l ls Hl _ IH]; constructor; auto.
      rewrite Count_append. simpl. lia. }
  assert (Hne : long <> EmptyString).
  { intros ->. simpl in Hlen. unfold Bufio.MaxScanTokenSize in Hlen. lia. }
  assert (L : Bufio.Lines (unlines LF before ++ long ++ rest) =
              Bufio.Lines (unlines LF before)).
  { unfold Bufio.Lines. rewrite Hraw.
    destruct (rawLines_first long rest Hn Hne) as (more & tail & ->).
    rewrite deliver_cut by (rewrite length_append; lia).
    assert (E : forall d, (d ++ EmptyString)%string = d)
      by (induction d; simpl; congruence).
    rewrite <- (E (unlines LF before)).
    rewrite Hraw. simpl. now rewrite app_nil_r. }
  split; [exact L|].
  unfold parseBytes. now rewrite L.
Qed.

Lemma overlong_line_ends_scan_silently_witness :
  (Forall (fun l => Count l "010" = 0%nat) [aliceLine] /\
   Count (replicate (Z.to_nat 65536) "x") "010" = 0%nat /\
   Bufio.MaxScanTokenSize <=
     Z.of_nat (String.length (replicate (Z.to_nat 65536) "x"))) /\
  parseBytes (unlines LF [aliceLine] ++ replicate (Z.to_nat 65536) "x"
              ++ LF ++ malformedLine ++ LF) =
  parseBytes (unlines LF [aliceLine]) /\
  parseBytes (unlines LF [aliceLine]) = Ok ([aliceRecord], []).
Proof.
  assert (Hb : Forall (fun l => Count l "010" = 0%nat) [aliceLine])
    by (repeat constructor).
  assert (Hn : Count (replicate (Z.to_nat 65536) "x") "010" = 0%nat)
    by (vm_compute; reflexivity).
  assert (Hl : Bufio.MaxScanTokenSize <=
               Z.of_nat (String.length (replicate (Z.to_nat 65536) "x")))
    by (vm_compute; discriminate).
  split; [exact (conj Hb (conj Hn Hl))|].
  split.
  - exact (proj2 (overlong_line_ends_scan_silently [aliceLine]
                    (replicate (Z.to_nat 65536) "x")
                    (LF ++ malformedLine ++ LF) Hb Hn Hl)).
  - vm_compute; reflexivity.
Defined.

(** X18. Only the CLIENT_LIST and ROUTING_TABLE lines count: whatever the
    file holds, [ParseStatusFile] returns for it, records, error or panic,
    what it returns for the file with every other line taken out. *)
Theorem scan_depends_on_record_lines_only (lines : list string) :
  ParseStatusFile (inr lines) =
  ParseStatusFile
    (inr (filter (fun l => isClientLine l || isRouteLine l) lines)).
Proof.
  unfold ParseStatusFile.
  generalize (@nil ClientInfo) (@nil RoutingInfo).
  induction lines as [|line lines IH]; intros cs rs; [reflexivity|].
  simpl filter.
  destruct (line_kind line) as [[EC ER] | [[EC ER] | [EC ER]]];
    rewrite EC, ER; simpl orb; cbv iota.
  - rewrite !scanLines_client by exact EC.
    destruct (parseClientListEntry line); cbn [bind]; [apply IH | reflexivity..].
  - rewrite !scanLines_route by exact ER.
    destruct (parseRoutingTableEntry line); cbn [bind]; [apply IH | reflexivity..].
  - rewrite scanLines_other by assumption. apply IH.
Qed.
